(** * Sophisticated Doctor: ingestion, fingerprint, analyzer and result cache

    A shallow embedding of [sophi-doc.py]: the tree walk with its ignore
    rules and size budgets ([read_project_files]), the metadata hash used as
    the cache key ([calculate_project_hash]), the per-file static analysis
    ([perform_static_analysis]), the result cache ([get_cached_result],
    [save_cached_result]) and the order in which [main] calls them.

    Python [str] values are carried as their UTF-8 bytes ([string]); Python
    [int]s are [Z]; [len] results are [nat]. *)

From Stdlib Require Import ZArith List String Ascii Lia Permutation.
From stdpp Require Import base tactics option list strings pretty gmap.

#[local] Set Warnings "-register-all".

Local Open Scope Z_scope.

(** ** hashlib.sha256 *)

Module Sha256.
Definition mask32 : Z := 0xffffffff.
Definition add32 (x y : Z) : Z := Z.land (x + y) mask32.
Definition rotr (n x : Z) : Z :=
  Z.lor (Z.shiftr x n) (Z.land (Z.shiftl x (32 - n)) mask32).
Definition Ch (x y z : Z) : Z :=
  Z.lxor (Z.land x y) (Z.land (Z.lxor x mask32) z).
Definition Maj (x y z : Z) : Z :=
  Z.lxor (Z.lxor (Z.land x y) (Z.land x z)) (Z.land y z).
Definition bsig0 (x : Z) : Z := Z.lxor (Z.lxor (rotr 2 x) (rotr 13 x)) (rotr 22 x).
Definition bsig1 (x : Z) : Z := Z.lxor (Z.lxor (rotr 6 x) (rotr 11 x)) (rotr 25 x).
Definition ssig0 (x : Z) : Z := Z.lxor (Z.lxor (rotr 7 x) (rotr 18 x)) (Z.shiftr x 3).
Definition ssig1 (x : Z) : Z := Z.lxor (Z.lxor (rotr 17 x) (rotr 19 x)) (Z.shiftr x 10).

(* FIPS 180-4, 4.2.2 and 5.3.3: the round constants are the first 32 bits
   of the fractional parts of the cube roots of the first 64 primes, the
   initial hash value those of the square roots of the first 8 *)
Definition is_prime (p : Z) : bool :=
  forallb (fun d => negb (p mod Z.of_nat d =? 0)) (seq 2 (Z.to_nat p - 2)).
Definition primes : list Z :=
  List.filter is_prime (map Z.of_nat (seq 2 310)).

(* the largest r below 2^36 with r^3 <= n, bit by bit *)
Definition cube_root (n : Z) : Z :=
  fold_left (fun r b => let r' := r + 2 ^ Z.of_nat b in
                        if r' * r' * r' <=? n then r' else r)
            (rev (seq 0 36)) 0.

Definition K : list Z :=
  Eval vm_compute in map (fun p => cube_root (p * 2 ^ 96) mod 2 ^ 32) primes.

Definition H0 : list Z :=
  Eval vm_compute in map (fun p => Z.sqrt (p * 2 ^ 64) mod 2 ^ 32) (firstn 8 primes).

(* the [n] low bytes of [x], most significant first *)
Definition be_bytes (n : nat) (x : Z) : list Z :=
  map (fun i => Z.land (Z.shiftr x (8 * Z.of_nat i)) 255) (rev (seq 0 n)).

(* the message, 0x80, the zero fill and the bit length on 8 bytes *)
Definition pad (msg : list Z) : list Z :=
  let len := Z.of_nat (length msg) in
  let fill := (55 - len) mod 64 in
  msg ++ 128 :: repeat 0 (Z.to_nat fill) ++ be_bytes 8 (8 * len).

Fixpoint words (fuel : nat) (bs : list Z) : list Z :=
  match fuel, bs with
  | S fuel', b0 :: b1 :: b2 :: b3 :: rest =>
      (Z.shiftl b0 24 + Z.shiftl b1 16 + Z.shiftl b2 8 + b3) :: words fuel' rest
  | _, _ => []
  end.

Fixpoint schedule (n : nat) (w : list Z) : list Z :=
  match n with
  | O => w
  | S n' =>
      let t := length w in
      let g k := nth (t - k) w 0 in
      schedule n' (w ++ [add32 (add32 (ssig1 (g 2%nat)) (g 7%nat))
                               (add32 (ssig0 (g 15%nat)) (g 16%nat))])
  end.

Definition round (st : list Z) (kw : Z * Z) : list Z :=
  match st with
  | [a; b; c; d; e; f; g; h] =>
      let t1 := add32 (add32 (add32 h (bsig1 e)) (add32 (Ch e f g) kw.1)) kw.2 in
      let t2 := add32 (bsig0 a) (Maj a b c) in
      [add32 t1 t2; a; b; c; add32 d t1; e; f; g]
  | _ => st
  end.

Definition compress (h : list Z) (block : list Z) : list Z :=
  let w := schedule 48 block in
  let st := fold_left round (combine K w) h in
  map (fun p : Z * Z => add32 p.1 p.2) (combine h st).

Fixpoint blocks (fuel : nat) (h : list Z) (ws : list Z) : list Z :=
  match fuel with
  | O => h
  | S fuel' =>
      match ws with
      | [] => h
      | _ => blocks fuel' (compress h (firstn 16 ws)) (skipn 16 ws)
      end
  end.

Definition digest (msg : list Z) : list Z :=
  let p := pad msg in
  let ws := words (length p) p in
  blocks (length ws) H0 ws.

Definition hex_digit (x : Z) : ascii :=
  ascii_of_nat (Z.to_nat (if x <? 10 then 48 + x else 87 + x)).

Fixpoint hex_of_nibbles (l : list Z) : string :=
  match l with
  | [] => EmptyString
  | x :: r => String (hex_digit x) (hex_of_nibbles r)
  end.

Definition word_nibbles (x : Z) : list Z :=
  map (fun i => Z.land (Z.shiftr x (4 * Z.of_nat i)) 15) (rev (seq 0 8)).

Fixpoint bytes_of_string (s : string) : list Z :=
  match s with
  | EmptyString => []
  | String c r => Z.of_nat (nat_of_ascii c) :: bytes_of_string r
  end.

(* hashlib.sha256(data).hexdigest() *)
Definition hexdigest (data : string) : string :=
  hex_of_nibbles (flat_map word_nibbles (digest (bytes_of_string data))).
End Sha256.

(** ** The str methods and os.path functions the program calls *)

Module Py.
(* s.endswith(suffix) *)
Definition endswith (s suffix : string) : bool :=
  let n := String.length s in
  let m := String.length suffix in
  (m <=? n)%nat && String.eqb (substring (n - m) m s) suffix.

(* sub in s *)
Fixpoint contains (sub s : string) : bool :=
  String.prefix sub s ||
  match s with
  | EmptyString => false
  | String _ r => contains sub r
  end.

(* s.count(sub) for a non-empty sub: occurrences that do not overlap,
   found from the left; [skip] bytes of the last match are still to pass *)
Fixpoint count_from (sub : string) (skip : nat) (s : string) : nat :=
  match s with
  | EmptyString => O
  | String _ r =>
      match skip with
      | S k => count_from sub k r
      | O => if String.prefix sub s
             then S (count_from sub (String.length sub - 1) r)
             else count_from sub O r
      end
  end.
Definition count (sub s : string) : nat := count_from sub O s.

(* s.split(sep)[0]: what comes before the first occurrence of sep *)
Fixpoint split_head (sep s : string) : string :=
  if String.prefix sep s then EmptyString
  else match s with
       | EmptyString => EmptyString
       | String c r => String c (split_head sep r)
       end.

(* the number of bytes of the line boundary that starts [s], 0 if none:
   \n \r \r\n \v \f \x1c \x1d \x1e, and U+0085, U+2028, U+2029 in UTF-8 *)
Definition boundary_len (s : string) : nat :=
  match s with
  | String c r =>
      let n := nat_of_ascii c in
      if (n =? 13)%nat then
        match r with
        | String d _ => if (nat_of_ascii d =? 10)%nat then 2%nat else 1%nat
        | EmptyString => 1%nat
        end
      else if ((n =? 10) || (n =? 11) || (n =? 12) || (n =? 28) || (n =? 29) || (n =? 30))%nat
      then 1%nat
      else if (n =? 194)%nat then
        match r with
        | String d _ => if (nat_of_ascii d =? 133)%nat then 2%nat else O
        | EmptyString => O
        end
      else if (n =? 226)%nat then
        match r with
        | String d (String e _) =>
            if ((nat_of_ascii d =? 128) &&
                ((nat_of_ascii e =? 168) || (nat_of_ascii e =? 169)))%nat
            then 3%nat else O
        | _ => O
        end
      else O
  | EmptyString => O
  end.


(* s.splitlines(): [cur] is the line being read, [skip] the bytes of the
   current boundary still to pass *)
Fixpoint splitlines_from (skip : nat) (cur : string) (s : string) : list string :=
  match s with
  | EmptyString => if String.eqb cur EmptyString then [] else [cur]
  | String c r =>
      match skip with
      | S k => splitlines_from k cur r
      | O =>
          match boundary_len s with
          | O => splitlines_from O (cur +:+ String c EmptyString) r
          | S k => cur :: splitlines_from k EmptyString r
          end
      end
  end.
Definition splitlines (s : string) : list string :=
  splitlines_from O EmptyString s.

(* sorted(l, key=key) on str keys: stable, in code point order (the
   order of the UTF-8 bytes) *)
Fixpoint insert_by {A} (key : A -> string) (x : A) (l : list A) : list A :=
  match l with
  | [] => [x]
  | y :: r => if String.leb (key x) (key y) then x :: l
              else y :: insert_by key x r
  end.
Definition sort_by {A} (key : A -> string) (l : list A) : list A :=
  foldr (insert_by key) [] l.

(* "\n" *)
Definition nl : string := String "010" EmptyString.

(* sep.join(parts) *)
Fixpoint join (sep : string) (parts : list string) : string :=
  match parts with
  | [] => EmptyString
  | [p] => p
  | p :: rest => p +:+ sep +:+ join sep rest
  end.

(* p.rfind(c) for a single character: the last index, or -1 *)
Fixpoint rfind_from (c : ascii) (i last : Z) (s : string) : Z :=
  match s with
  | EmptyString => last
  | String d r => rfind_from c (i + 1) (if Ascii.eqb c d then i else last) r
  end.
Definition rfind (c : ascii) (s : string) : Z := rfind_from c 0 (-1) s.

(* p[i:j] for 0 <= i *)
Definition slice (i j : Z) (s : string) : string :=
  substring (Z.to_nat i) (Z.to_nat (j - i)) s.

Fixpoint all_dots (s : string) : bool :=
  match s with
  | EmptyString => true
  | String c r => Ascii.eqb c "."%char && all_dots r
  end.

(* os.path.splitext(p)[1] (posixpath): the text from the last dot of the
   last component on, unless only dots come before it in that component *)
Definition splitext_ext (p : string) : string :=
  let sepIndex := rfind "/"%char p in
  let dotIndex := rfind "."%char p in
  if (dotIndex >? sepIndex) && negb (all_dots (slice (sepIndex + 1) dotIndex p))
  then slice dotIndex (Z.of_nat (String.length p)) p
  else EmptyString.

(* os.path.join(a, b) for a relative b, and the path of it relative to
   the walk's top, whose own relative path is the empty string *)
Definition path_join (root name : string) : string :=
  if String.eqb root EmptyString then name else root +:+ "/" +:+ name.

(* f"{n:,}" for n >= 0 *)
Fixpoint group3 (fuel : nat) (n : Z) : string :=
  match fuel with
  | O => pretty n
  | S fuel' =>
      if n <? 1000 then pretty n
      else
        let r := n mod 1000 in
        group3 fuel' (n / 1000) +:+ "," +:+
        (if r <? 10 then "00" else if r <? 100 then "0" else "") +:+ pretty r
  end.
Definition format_thousands (n : Z) : string := group3 (Z.to_nat n) n.

(* f"{size/1024:.1f}" for 0 <= size < 2^53: the quotient is exact as a
   float, and the tenths are rounded half to even *)
Definition format_kb (size : Z) : string :=
  let n := size * 10 in
  let q := n / 1024 in
  let r := n mod 1024 in
  let t := if r <? 512 then q
           else if 512 <? r then q + 1
           else if Z.even q then q else q + 1 in
  pretty (t / 10) +:+ "." +:+ pretty (t mod 10).
End Py.

(** ** Exceptions *)

Inductive exn :=
| SyntaxError (msg : string)        (* str(e) of a SyntaxError *)
| OtherException (msg : string).    (* str(e) of any other Exception *)

Inductive outcome (A : Type) :=
| Returned (a : A)
| Raised (e : exn).
Arguments Returned {A} a.
Arguments Raised {A} e.

(* try: body / except SyntaxError as e: h1 / except Exception as e: h2 *)
Definition try_except {A} (body : outcome A)
    (on_syntax_error on_exception : string -> outcome A) : outcome A :=
  match body with
  | Returned a => Returned a
  | Raised (SyntaxError msg) => on_syntax_error msg
  | Raised (OtherException msg) => on_exception msg
  end.

Definition bind {A B} (m : outcome A) (k : A -> outcome B) : outcome B :=
  match m with
  | Returned a => k a
  | Raised e => Raised e
  end.

(** ** The syntax tree of the ast module, as far as the analysis looks at it

    Only statements can hold a definition; the expression nodes that
    [ast.walk] also yields are neither [FunctionDef] nor [ClassDef] and are
    left out. *)

Module Ast.
Record arguments := {
  posonlyargs : list string;
  args : list string;
  vararg : option string;
  kwonlyargs : list string;
  kwarg : option string
}.

Inductive node :=
| Module_ (body : list node)
| FunctionDef (name : string) (a : arguments) (body : list node)
| AsyncFunctionDef (name : string) (a : arguments) (body : list node)
| ClassDef (name : string) (body : list node)
| ExprStr (value : string)        (* an expression statement that is a str constant *)
| Compound (body : list node)     (* if, for, while, with, try, match: their statements *)
| Simple.                         (* a statement that holds no statement *)

(* ast.iter_child_nodes, statements only *)
Definition iter_child_nodes (n : node) : list node :=
  match n with
  | Module_ body | FunctionDef _ _ body | AsyncFunctionDef _ _ body
  | ClassDef _ body | Compound body => body
  | ExprStr _ | Simple => []
  end.

Fixpoint size (n : node) : nat :=
  S (match n with
     | Module_ body | FunctionDef _ _ body | AsyncFunctionDef _ _ body
     | ClassDef _ body | Compound body =>
         (fix sizes (l : list node) : nat :=
            match l with
            | [] => O
            | m :: r => (size m + sizes r)%nat
            end) body
     | ExprStr _ | Simple => O
     end).

(* the nodes in a queue of trees *)
Definition sizes (l : list node) : nat := foldr (fun n acc => (size n + acc)%nat) O l.

(* ast.walk: todo = deque([node]); pop left, extend with the children,
   yield.  Every step removes one node of the finite tree, so [fuel]
   nodes' worth of steps are enough when fuel is the size of the queue. *)
Fixpoint walk_from (fuel : nat) (todo : list node) : list node :=
  match fuel with
  | O => []
  | S fuel' =>
      match todo with
      | [] => []
      | n :: rest => n :: walk_from fuel' (rest ++ iter_child_nodes n)
      end
  end.
Definition walk (tree : node) : list node := walk_from (size tree) [tree].

Definition is_FunctionDef (n : node) : bool :=
  match n with FunctionDef _ _ _ => true | _ => false end.
Definition is_ClassDef (n : node) : bool :=
  match n with ClassDef _ _ => true | _ => false end.

(* the raw docstring: body[0] when it is an expression statement holding
   a str constant *)
Definition raw_docstring (body : list node) : option string :=
  match body with
  | ExprStr text :: _ => Some text
  | _ => None
  end.

(* every node of the tree, parents first, depth first *)
Fixpoint nodes (n : node) : list node :=
  n :: match n with
       | Module_ body | FunctionDef _ _ body | AsyncFunctionDef _ _ body
       | ClassDef _ body | Compound body =>
           (fix go (l : list node) : list node :=
              match l with
              | [] => []
              | m :: r => nodes m ++ go r
              end) body
       | ExprStr _ | Simple => []
       end.

(* the nodes of a tree that satisfy [p], nested ones included, counted by
   recursion on the tree *)
Fixpoint count_nodes (p : node -> bool) (n : node) : nat :=
  ((if p n then 1 else 0) +
   match n with
   | Module_ body | FunctionDef _ _ body | AsyncFunctionDef _ _ body
   | ClassDef _ body | Compound body =>
       (fix go (l : list node) : nat :=
          match l with
          | [] => O
          | m :: r => (count_nodes p m + go r)%nat
          end) body
   | ExprStr _ | Simple => O
   end)%nat.

(* def statements, and class statements *)
Definition count_defs (tree : node) : nat := count_nodes is_FunctionDef tree.
Definition count_classes (tree : node) : nat := count_nodes is_ClassDef tree.

(* def, async def and class statements *)
Definition is_definition (n : node) : bool :=
  match n with
  | FunctionDef _ _ _ | AsyncFunctionDef _ _ _ | ClassDef _ _ => true
  | _ => false
  end.
End Ast.

(** ** What the program takes from its libraries and from the outside

    [str] of a float, shell-style matching, the Python parser and the
    remote provider are not part of the program: it is stated for every
    implementation of them. *)

Class PyLib := {
  mtime : Type;                              (* the float os.stat gives as st_mtime *)
  str_float : mtime -> string;               (* str(stat.st_mtime) *)
  fnmatch : string -> string -> bool;        (* fnmatch.fnmatch(name, pat) *)
  ast_parse : string -> outcome Ast.node;    (* ast.parse(content) *)
  cleandoc : string -> string;               (* inspect.cleandoc, as ast.get_docstring applies it *)
  call_api : string -> string -> string -> string
                                             (* call_<provider>_api(api_key, system_prompt, user_query),
                                                by provider; the prompt is a constant *)
}.

(** ** Constants *)

Definition DEFAULT_IGNORE_DIRS : gset string :=
  {[ ".git"; "__pycache__"; "node_modules"; ".vscode"; ".idea"; "venv"; "env"; "dist"; "build" ]}.
Definition DEFAULT_IGNORE_EXTENSIONS : gset string :=
  {[ ".pyc"; ".pyo"; ".o"; ".so"; ".dll"; ".exe"; ".DS_Store"; ".log"; ".tmp" ]}.

Definition DEFAULT_MAX_FILE_SIZE : Z := 1024 * 1024.
Definition DEFAULT_MAX_TOTAL_SIZE : Z := 10 * 1024 * 1024.

(** ** perform_static_analysis *)

Record structure_metrics := {
  functions : nat;
  classes : nat;
  complexity_score : nat
}.

Record analysis := {
  file_path : string;
  lines_of_code : nat;
  size_bytes : nat;
  structure : option structure_metrics;   (* the keys analysis.update adds *)
  issues : list string
}.

Definition add_issues (a : analysis) (new : list string) : analysis :=
  {| file_path := file_path a; lines_of_code := lines_of_code a;
     size_bytes := size_bytes a; structure := structure a;
     issues := issues a ++ new |}.

Definition update_structure (a : analysis) (m : structure_metrics) : analysis :=
  {| file_path := file_path a; lines_of_code := lines_of_code a;
     size_bytes := size_bytes a; structure := Some m;
     issues := issues a |}.

Section Analyzer.
Context `{L : PyLib}.

(* ast.get_docstring(node) for a node with a body *)
Definition get_docstring (body : list Ast.node) : option string :=
  match Ast.raw_docstring body with
  | Some text => Some (cleandoc text)
  | None => None
  end.

(* not ast.get_docstring(node) *)
Definition lacks_docstring (body : list Ast.node) : bool :=
  match get_docstring body with
  | None => true
  | Some doc => String.eqb doc EmptyString
  end.

(* one round of the loop over ast.walk(tree): the issues a node adds *)
Definition node_issues (node : Ast.node) : list string :=
  match node with
  | Ast.FunctionDef name a body =>
      (if (5 <? length (Ast.args a))%nat
       then ["Function '" +:+ name +:+ "' has " +:+ pretty (length (Ast.args a))
             +:+ " parameters (consider reducing)"]
       else [])
      ++ (if lacks_docstring body
          then ["Function '" +:+ name +:+ "' lacks documentation"]
          else [])
  | _ => []
  end.

Definition analyze_python (a0 : analysis) (content : string) : outcome analysis :=
  try_except
    (bind (ast_parse content) (fun tree =>
       let functions := List.filter Ast.is_FunctionDef (Ast.walk tree) in
       let classes := List.filter Ast.is_ClassDef (Ast.walk tree) in
       let a1 := update_structure a0
                   {| functions := length functions;
                      classes := length classes;
                      complexity_score := (length functions + length classes * 2)%nat |} in
       Returned (add_issues a1 (flat_map node_issues (Ast.walk tree)))))
    (fun e => Returned (add_issues a0 ["Syntax error: " +:+ e]))
    (fun e => Returned (add_issues a0 ["Analysis error: " +:+ e])).

Definition analyze_script (a0 : analysis) (content : string) : analysis :=
  let a1 := if Py.contains "console.log(" content
            then add_issues a0 ["Contains console.log statements (remove for production)"]
            else a0 in
  let a2 := if Py.contains "var " content
            then add_issues a1 ["Uses 'var' declarations (consider 'let' or 'const')"]
            else a1 in
  if (10 <? Py.count "function" content)%nat
  then add_issues a2 ["High function count (" +:+ pretty (Py.count "function" content)
                      +:+ ") - consider refactoring"]
  else a2.

Definition perform_static_analysis (file_path content : string) : outcome analysis :=
  let a0 := {| file_path := file_path;
               lines_of_code := length (Py.splitlines content);
               size_bytes := String.length content;
               structure := None;
               issues := [] |} in
  if Py.endswith file_path ".py" then analyze_python a0 content
  else if existsb (Py.endswith file_path) [".js"; ".ts"; ".jsx"; ".tsx"]
  then Returned (analyze_script a0 content)
  else Returned a0.
End Analyzer.

(** ** The directory tree and os.walk *)

Section Tree.
Context `{L : PyLib}.

Record file := {
  f_name : string;
  f_stat : option (mtime * Z);   (* os.stat: st_mtime and st_size, None when it raises *)
  f_text : option string         (* what open and read give, None when they raise *)
}.

(* a directory: its files and its sub-directories, each in the order the
   system lists them *)
Inductive dir :=
| Dir (files : list file) (subdirs : list (string * dir)).

(* os.walk(top, topdown=True), for a caller that edits [dirs] in place to
   [d for d in dirs if keep dirs d]: the (root, files) of every directory
   reached, [root] being its path relative to the top *)
Fixpoint os_walk (keep : list string -> string -> bool) (root : string) (d : dir)
    : list (string * list file) :=
  match d with
  | Dir files subdirs =>
      let dirs := map fst subdirs in
      (root, files) ::
      (fix descend (l : list (string * dir)) : list (string * list file) :=
         match l with
         | [] => []
         | (name, sub) :: rest =>
             (if keep dirs name then os_walk keep (Py.path_join root name) sub else [])
             ++ descend rest
         end) subdirs
  end.

(* fnmatch.filter(names, pat) *)
Definition fnmatch_filter (names : list string) (pat : string) : list string :=
  List.filter (fun n => fnmatch n pat) names.

Definition all_ignored_dirs (ignore_patterns dirs : list string) : gset string :=
  DEFAULT_IGNORE_DIRS ∪ list_to_set (flat_map (fnmatch_filter dirs) ignore_patterns).

(* dirs[:] = [d for d in dirs if d not in all_ignored_dirs] *)
Definition keep_dir (ignore_patterns dirs : list string) (d : string) : bool :=
  bool_decide (d ∉ all_ignored_dirs ignore_patterns dirs).

(* sorted(files): the names are sorted, the records travel with them *)
Definition sorted (files : list file) : list file := Py.sort_by f_name files.

(** ** calculate_project_hash *)

(* one round of the loop over the files: [hasher] is every byte given to
   hasher.update so far *)
Definition hash_file (ignore_patterns : list string) (root : string)
    (hasher : string) (file : file) : string :=
  let relative_path := Py.path_join root (f_name file) in
  let file_extension := Py.splitext_ext (f_name file) in
  if bool_decide (file_extension ∈ DEFAULT_IGNORE_EXTENSIONS) then hasher
  else if existsb (fnmatch relative_path) ignore_patterns then hasher
  else
    let hasher := hasher +:+ relative_path in
    match f_stat file with
    | Some (st_mtime, st_size) => (hasher +:+ str_float st_mtime) +:+ pretty st_size
    | None => hasher
    end.

Definition hash_updates (project_path : dir) (ignore_patterns : list string) : string :=
  foldl (fun hasher '(root, files) =>
           foldl (hash_file ignore_patterns root) hasher (sorted files))
        EmptyString
        (os_walk (keep_dir ignore_patterns) EmptyString project_path).

Definition calculate_project_hash (project_path : dir) (ignore_patterns : list string)
    : string :=
  Sha256.hexdigest (hash_updates project_path ignore_patterns).
End Tree.

(** ** The result cache

    CACHE_DIR holds one file per key.  Times are microseconds, the unit of
    datetime; isoformat and fromisoformat give the time back as it was. *)

Inductive cache_file :=
| CacheData (created : Z) (result : string)   (* {"created": ..., "result": ...} *)
| Unreadable.                                 (* json.load or a key lookup raises *)

(* None: CACHE_DIR does not exist *)
Abbreviation cache_dir := (option (gmap string cache_file)).

(* the file of a key, if CACHE_DIR and the file exist *)
Definition cache_lookup (fs : cache_dir) (cache_key : string) : option cache_file :=
  match fs with
  | Some entries => entries !! cache_key
  | None => None
  end.

(* timedelta(hours=h) *)
Definition timedelta_hours (h : Z) : Z := h * 3600000000.

Definition get_cached_result (cache_key : string) (max_age_hours : Z) (now : Z)
    (fs : cache_dir) : option string * cache_dir :=
  match fs with
  | None => (None, fs)
  | Some entries =>
      match entries !! cache_key with
      | None => (None, fs)
      | Some Unreadable => (None, fs)
      | Some (CacheData created_time result) =>
          if timedelta_hours max_age_hours <? now - created_time
          then (None, Some (delete cache_key entries))
          else (Some result, fs)
      end
  end.

Definition save_cached_result (cache_key result : string) (now : Z) (fs : cache_dir)
    : cache_dir :=
  Some (<[cache_key := CacheData now result]> (default ∅ fs)).

(** ** read_project_files *)

Section Scanner.
Context `{L : PyLib}.

(* the first pass; [counted] is not in the program: it lists the files
   for which file_count is incremented *)
Record budget := {
  file_count : nat;
  total_size : Z;
  skipped_files : list string;
  counted : list (string * mtime * Z)
}.

Definition budget_file (ignore_patterns : list string) (max_file_size max_total_size : Z)
    (root : string) (st : budget) (file : file) : budget :=
  let relative_path := Py.path_join root (f_name file) in
  let file_extension := Py.splitext_ext (f_name file) in
  if bool_decide (file_extension ∈ DEFAULT_IGNORE_EXTENSIONS) then st
  else if existsb (fnmatch relative_path) ignore_patterns then st
  else
    match f_stat file with
    | None => st
    | Some (st_mtime, file_size) =>
        if max_file_size <? file_size then
          {| file_count := file_count st; total_size := total_size st;
             skipped_files := skipped_files st ++
               [relative_path +:+ " (size: " +:+ Py.format_kb file_size +:+ "KB)"];
             counted := counted st |}
        else if max_total_size <? total_size st + file_size then
          {| file_count := file_count st; total_size := total_size st;
             skipped_files := skipped_files st ++
               [relative_path +:+ " (total size limit reached)"];
             counted := counted st |}
        else
          {| file_count := S (file_count st);
             total_size := total_size st + file_size;
             skipped_files := skipped_files st;
             counted := counted st ++ [(relative_path, st_mtime, file_size)] |}
    end.

(* the two texts a skipped file is recorded with *)
Definition size_skip (rel : string) (size : Z) : string :=
  rel +:+ " (size: " +:+ Py.format_kb size +:+ "KB)".
Definition total_skip (rel : string) : string :=
  rel +:+ " (total size limit reached)".

Definition sum_sizes (l : list (string * mtime * Z)) : Z :=
  foldr (fun x acc => x.2 + acc) 0 l.

Definition budget_pass (project_path : dir) (ignore_patterns : list string)
    (max_file_size max_total_size : Z) : budget :=
  foldl (fun st '(root, files) =>
           foldl (budget_file ignore_patterns max_file_size max_total_size root) st files)
        {| file_count := O; total_size := 0; skipped_files := []; counted := [] |}
        (os_walk (keep_dir ignore_patterns) EmptyString project_path).

(* the second pass *)
Record reading := {
  all_files_content : list string;
  static_analysis_results : list analysis;
  processed_files : nat
}.

Definition formatted_content (relative_path content : string) : string :=
  "--- Filename: " +:+ relative_path +:+ " ---" +:+ String "010" content
  +:+ String "010" EmptyString.

Definition read_file (ignore_patterns : list string) (max_file_size : Z)
    (enable_static_analysis : bool) (skipped_files : list string)
    (root : string) (st : reading) (file : file) : reading :=
  let relative_path := Py.path_join root (f_name file) in
  let file_extension := Py.splitext_ext (f_name file) in
  if bool_decide (file_extension ∈ DEFAULT_IGNORE_EXTENSIONS) then st
  else if existsb (fnmatch relative_path) ignore_patterns then st
  else
    match f_stat file with
    | None => st
    | Some (_, file_size) =>
        if (max_file_size <? file_size)
           || bool_decide (relative_path ∈ map (Py.split_head " (") skipped_files)
        then st
        else
          match f_text file with
          | None => st                          (* Warning: Could not read file *)
          | Some content =>
              let contents := all_files_content st
                              ++ [formatted_content relative_path content] in
              if enable_static_analysis then
                match perform_static_analysis relative_path content with
                | Returned a =>
                    {| all_files_content := contents;
                       static_analysis_results := static_analysis_results st ++ [a];
                       processed_files := S (processed_files st) |}
                | Raised _ =>                   (* the same except clause *)
                    {| all_files_content := contents;
                       static_analysis_results := static_analysis_results st;
                       processed_files := processed_files st |}
                end
              else
                {| all_files_content := contents;
                   static_analysis_results := static_analysis_results st;
                   processed_files := S (processed_files st) |}
          end
    end.

Definition read_pass (project_path : dir) (ignore_patterns : list string)
    (max_file_size : Z) (enable_static_analysis : bool) (skipped_files : list string)
    : reading :=
  foldl (fun st '(root, files) =>
           foldl (read_file ignore_patterns max_file_size enable_static_analysis
                            skipped_files root) st files)
        {| all_files_content := []; static_analysis_results := [];
           processed_files := O |}
        (os_walk (keep_dir ignore_patterns) EmptyString project_path).

Record stats := {
  total_files : nat;
  total_bytes : Z;               (* total_size_kb is this over 1024 *)
  stats_skipped_files : list string
}.

(* sys.exit(1) after "No readable files found" *)
Inductive no_readable_files := NoReadableFiles.

Definition read_project_files (project_path : dir)
    (custom_ignore_patterns : option (list string))
    (max_file_size max_total_size : Z) (enable_static_analysis : bool)
    : no_readable_files + (string * list analysis * stats) :=
  let ignore_patterns := default [] custom_ignore_patterns in
  let first := budget_pass project_path ignore_patterns max_file_size max_total_size in
  if (file_count first =? 0)%nat then inl NoReadableFiles
  else
    let second := read_pass project_path ignore_patterns max_file_size
                            enable_static_analysis (skipped_files first) in
    inr (Py.join (String "010" EmptyString) (all_files_content second),
         static_analysis_results second,
         {| total_files := processed_files second;
            total_bytes := total_size first;
            stats_skipped_files := skipped_files first |}).

(** ** format_static_analysis_summary and get_diagnosis *)

Definition sum_nat (l : list nat) : nat := foldr Nat.add O l.

Definition format_static_analysis_summary (analysis_results : list analysis) : string :=
  match analysis_results with
  | [] => EmptyString
  | _ =>
      let total_lines := sum_nat (map lines_of_code analysis_results) in
      let total_issues := sum_nat (map (fun r => length (issues r)) analysis_results) in
      let all_issues :=
        flat_map (fun r => map (fun issue => "- " +:+ file_path r +:+ ": " +:+ issue)
                               (issues r)) analysis_results in
      let nl := String "010" EmptyString in
      (nl +:+ "### 📊 Static Analysis Summary" +:+ nl
       +:+ "- **Total Lines of Code**: " +:+ Py.format_thousands (Z.of_nat total_lines) +:+ nl
       +:+ "- **Files Analyzed**: " +:+ pretty (length analysis_results) +:+ nl
       +:+ "- **Issues Found**: " +:+ pretty total_issues +:+ nl +:+ nl)
      +:+ (if (0 <? total_issues)%nat then
             "**Top Issues Found:**" +:+ nl
             +:+ foldr (fun issue acc => issue +:+ nl +:+ acc) EmptyString
                       (firstn 10 all_issues)
             +:+ (if (10 <? length all_issues)%nat
                  then "... and " +:+ pretty (length all_issues - 10)%nat
                       +:+ " more issues" +:+ nl
                  else EmptyString)
           else EmptyString)
  end.

Definition get_diagnosis (api_key provider project_type project_content
    static_analysis_summary : string) : string :=
  let nl := String "010" EmptyString in
  let user_query := "Project Type: " +:+ project_type +:+ nl +:+ nl
                    +:+ static_analysis_summary
                    +:+ "Project Files & Content:" +:+ nl +:+ "---" +:+ nl
                    +:+ project_content in
  call_api provider api_key user_query.

(** ** main *)

Record args := {
  path : dir;
  type_ : string;
  provider : string;
  ignore : option (list string);
  max_file_size : Z;
  max_total_size : Z;
  no_cache : bool;
  no_static_analysis : bool
}.

Record config := {
  cache_enabled : bool;
  cache_duration_hours : Z
}.

Record env := {
  api_key : option string;   (* os.environ.get(<provider key>) *)
  now : Z;                   (* datetime.now() in get_cached_result *)
  now_at_save : Z            (* datetime.now() in save_cached_result *)
}.

Inductive fatal := MissingApiKey | EmptyProject.

Inductive result :=
| CachedReport (text : string)
| Report (text : string)
| Exit (why : fatal).

(* what a run does, in order; not in the program *)
Inductive event :=
| CacheLookup (cache_key : string)
| BudgetPass
| ReadPass
| StaticAnalysis (file_path : string)
| Diagnosis
| CacheSave (cache_key : string).

Record run := {
  outcome_of : result;
  cache_after : cache_dir;
  trace : list event
}.

(* if cached_result: *)
Definition truthy (r : option string) : bool :=
  match r with
  | Some text => negb (String.eqb text EmptyString)
  | None => false
  end.

(* get_api_key, for a provider of AI_PROVIDERS *)
Definition get_api_key (e : env) : option string :=
  match api_key e with
  | Some key => if String.eqb key EmptyString then None else Some key
  | None => None
  end.

Definition main (a : args) (c : config) (e : env) (fs : cache_dir) : run :=
  let use_cache := negb (no_cache a) && cache_enabled c in
  let cache_key :=
    if use_cache then Some (calculate_project_hash (path a) (default [] (ignore a)))
    else None in
  let '(cached_result, fs1, tr1) :=
    match cache_key with
    | Some k =>
        let '(r, fs') := get_cached_result k (cache_duration_hours c) (now e) fs in
        (r, fs', [CacheLookup k])
    | None => (None, fs, [])
    end in
  if truthy cached_result then
    {| outcome_of := CachedReport (default EmptyString cached_result);
       cache_after := fs1; trace := tr1 |}
  else
    match get_api_key e with
    | None => {| outcome_of := Exit MissingApiKey; cache_after := fs1; trace := tr1 |}
    | Some key =>
        match read_project_files (path a) (ignore a) (max_file_size a)
                (max_total_size a) (negb (no_static_analysis a)) with
        | inl NoReadableFiles =>
            {| outcome_of := Exit EmptyProject; cache_after := fs1;
               trace := tr1 ++ [BudgetPass] |}
        | inr (project_content, static_analysis_results, _) =>
            let static_analysis_summary :=
              if no_static_analysis a then EmptyString
              else format_static_analysis_summary static_analysis_results in
            let diagnosis := get_diagnosis key (provider a) (type_ a) project_content
                                           static_analysis_summary in
            let tr2 := tr1 ++ [BudgetPass; ReadPass]
                       ++ map (fun r => StaticAnalysis (file_path r)) static_analysis_results
                       ++ [Diagnosis] in
            match cache_key with
            | Some k =>
                {| outcome_of := Report diagnosis;
                   cache_after := save_cached_result k diagnosis (now_at_save e) fs1;
                   trace := tr2 ++ [CacheSave k] |}
            | None =>
                {| outcome_of := Report diagnosis; cache_after := fs1; trace := tr2 |}
            end
        end
    end.

Definition uses_cache (a : args) (c : config) : bool :=
  negb (no_cache a) && cache_enabled c.

(* the first pass counts no file *)
Definition empty_scan (a : args) : Prop :=
  file_count (budget_pass (path a) (default [] (ignore a)) (max_file_size a)
                          (max_total_size a)) = O.
End Scanner.

(** ** The files the loops reach, and changes to a tree *)

Section Views.
Context `{L : PyLib}.

(* the two tests every loop starts with *)
Definition excluded (ignore_patterns : list string) (root : string) (f : file) : bool :=
  bool_decide (Py.splitext_ext (f_name f) ∈ DEFAULT_IGNORE_EXTENSIONS)
  || existsb (fnmatch (Py.path_join root (f_name f))) ignore_patterns.

(* the files that get past them, with their relative paths, in the order
   the loops reach them; [order] is what the loop does to [files] first *)
Definition loop_files (order : list file -> list file) (ignore_patterns : list string)
    (walk : list (string * list file)) : list (string * file) :=
  flat_map (fun '(root, files) =>
              map (fun f => (Py.path_join root (f_name f), f))
                  (List.filter (fun f => negb (excluded ignore_patterns root f))
                               (order files)))
           walk.

Definition considered (order : list file -> list file) (ignore_patterns : list string)
    (project_path : dir) : list (string * file) :=
  loop_files order ignore_patterns
             (os_walk (keep_dir ignore_patterns) EmptyString project_path).

(* the files the two passes of read_project_files get to look at *)
Definition scanned (project_path : dir) (ignore_patterns : list string)
    : list (string * file) :=
  considered (fun files => files) ignore_patterns project_path.

(* the files calculate_project_hash feeds to the hasher *)
Definition hashed (project_path : dir) (ignore_patterns : list string)
    : list (string * file) :=
  considered sorted ignore_patterns project_path.

(* the bytes one file adds to the hasher *)
Definition hash_bytes (e : string * file) : string :=
  match f_stat e.2 with
  | Some (st_mtime, st_size) => (e.1 +:+ str_float st_mtime) +:+ pretty st_size
  | None => e.1
  end.

Fixpoint concat_str (l : list string) : string :=
  match l with
  | [] => EmptyString
  | x :: r => x +:+ concat_str r
  end.


(* Spec 4.3, fingerprint(AdmittedFile[]): sort the admitted files by
   relative path, then feed the hash with each file's path, modification
   time and size; the digest in hex *)
Definition SnapshotFingerprint (admitted : list (string * mtime * Z)) : string :=
  Sha256.hexdigest
    (concat_str (map (fun x : string * mtime * Z =>
                        (x.1.1 +:+ str_float x.1.2) +:+ pretty x.2)
                     (Py.sort_by (fun x : string * mtime * Z => x.1.1) admitted))).

(* [g relative_path] applied to every file of the tree *)
Fixpoint map_files (g : string -> file -> file) (root : string) (d : dir) : dir :=
  match d with
  | Dir files subdirs =>
      Dir (map (fun f => g (Py.path_join root (f_name f)) f) files)
          ((fix descend (l : list (string * dir)) : list (string * dir) :=
              match l with
              | [] => []
              | (name, sub) :: rest =>
                  (name, map_files g (Py.path_join root name) sub) :: descend rest
              end) subdirs)
  end.

(* [g] changes no name *)
Definition keeps_names (g : string -> file -> file) : Prop :=
  forall rel f, f_name (g rel f) = f_name f.

(* the file at [p] gets the modification time [m] *)
Definition touch (p : string) (m : mtime) (rel : string) (f : file) : file :=
  if String.eqb rel p then
    {| f_name := f_name f;
       f_stat := match f_stat f with Some (_, size) => Some (m, size) | None => None end;
       f_text := f_text f |}
  else f.


(* every file gets the text [text relative_path] *)
Definition rewrite (text : string -> option string) (rel : string) (f : file) : file :=
  {| f_name := f_name f; f_stat := f_stat f; f_text := text rel |}.



(* the sub-directories listed in another order, files and contents as
   they were: the same tree as another listing gives it *)
Definition relist (order : list (string * dir) -> list (string * dir)) (d : dir) : dir :=
  match d with
  | Dir files subdirs => Dir files (order subdirs)
  end.

(* every directory's files listed in another order *)
Fixpoint reorder_files (perm : list file -> list file) (d : dir) : dir :=
  match d with
  | Dir files subdirs =>
      Dir (perm files)
          ((fix descend (l : list (string * dir)) : list (string * dir) :=
              match l with
              | [] => []
              | (name, sub) :: rest => (name, reorder_files perm sub) :: descend rest
              end) subdirs)
  end.

(* no directory lists two files of the same name *)
Inductive distinct_names : dir -> Prop :=
| distinct_Dir files subdirs :
    NoDup (map f_name files) ->
    Forall (fun p => distinct_names p.2) subdirs ->
    distinct_names (Dir files subdirs).

End Views.

(** ** The loops seen as folds over the files they get to

    The bodies of the two loops of [read_project_files] past the two
    ignore tests, the paths the ignore rules allow, and what [main] derives
    from its arguments.  The properties of the passes are stated with
    these. *)

Section ScanViews.
Context `{L : PyLib}.



(* the body of the first loop of read_project_files, past the two tests *)
Definition budget_step (max_file_size max_total_size : Z) (st : budget)
    (e : string * file) : budget :=
  match f_stat e.2 with
  | None => st
  | Some (st_mtime, file_size) =>
      if max_file_size <? file_size then
        {| file_count := file_count st; total_size := total_size st;
           skipped_files := skipped_files st ++ [size_skip e.1 file_size];
           counted := counted st |}
      else if max_total_size <? total_size st + file_size then
        {| file_count := file_count st; total_size := total_size st;
           skipped_files := skipped_files st ++ [total_skip e.1];
           counted := counted st |}
      else
        {| file_count := S (file_count st);
           total_size := total_size st + file_size;
           skipped_files := skipped_files st;
           counted := counted st ++ [(e.1, st_mtime, file_size)] |}
  end.

(* the files the second loop reads, and the text it keeps of each *)
Definition read_choice (max_file_size : Z) (skipped_files : list string)
    (e : string * file) : option string :=
  match f_stat e.2 with
  | None => None
  | Some (_, file_size) =>
      if (max_file_size <? file_size)
         || bool_decide (e.1 ∈ map (Py.split_head " (") skipped_files)
      then None
      else match f_text e.2 with
           | Some content => Some (formatted_content e.1 content)
           | None => None
           end
  end.

(* the counters before the first loop *)
Definition budget_start : budget :=
  {| file_count := O; total_size := 0; skipped_files := []; counted := [] |}.

(* os.path.getsize succeeds *)
Definition has_size (e : string * file) : bool :=
  match f_stat e.2 with Some _ => true | None => false end.

(* the size os.path.getsize gives, 0 when it raises *)
Definition size_of (e : string * file) : Z :=
  match f_stat e.2 with Some (_, size) => size | None => 0 end.

(* what the first pass records of a file it counts *)
Definition count_entry (e : string * file) : option (string * mtime * Z) :=
  match f_stat e.2 with Some (m, size) => Some (e.1, m, size) | None => None end.

(* the text of a file whose size and text can both be read *)
Definition readable_text (e : string * file) : option string :=
  match f_stat e.2, f_text e.2 with
  | Some _, Some content => Some (formatted_content e.1 content)
  | _, _ => None
  end.

(* the bytes of all the files whose size can be read *)
Definition total_bytes_of (l : list (string * file)) : Z :=
  foldr (fun e acc => size_of e + acc) 0 l.

(* the lists and the counter before the second loop *)
Definition reading_start : reading :=
  {| all_files_content := []; static_analysis_results := []; processed_files := O |}.

(* the body of the second loop of read_project_files, past the two tests *)
Definition read_step (max_file_size : Z) (enable_static_analysis : bool)
    (skipped_files : list string) (st : reading) (e : string * file) : reading :=
  match f_stat e.2 with
  | None => st
  | Some (_, file_size) =>
      if (max_file_size <? file_size)
         || bool_decide (e.1 ∈ map (Py.split_head " (") skipped_files)
      then st
      else
        match f_text e.2 with
        | None => st
        | Some content =>
            let contents := all_files_content st ++ [formatted_content e.1 content] in
            if enable_static_analysis then
              match perform_static_analysis e.1 content with
              | Returned a =>
                  {| all_files_content := contents;
                     static_analysis_results := static_analysis_results st ++ [a];
                     processed_files := S (processed_files st) |}
              | Raised _ =>
                  {| all_files_content := contents;
                     static_analysis_results := static_analysis_results st;
                     processed_files := processed_files st |}
              end
            else
              {| all_files_content := contents;
                 static_analysis_results := static_analysis_results st;
                 processed_files := S (processed_files st) |}
        end
  end.

(* the arguments of a run on another tree *)
Definition with_path (a : args) (t : dir) : args :=
  {| path := t; type_ := type_ a; provider := provider a; ignore := ignore a;
     max_file_size := max_file_size a; max_total_size := max_total_size a;
     no_cache := no_cache a; no_static_analysis := no_static_analysis a |}.

(* the key main looks up and saves under *)
Definition run_key (a : args) : string :=
  calculate_project_hash (path a) (default [] (ignore a)).

(* the cache gives main a report *)
Definition cache_hit (a : args) (c : config) (e : env) (fs : cache_dir) : bool :=
  uses_cache a c
  && truthy (get_cached_result (run_key a) (cache_duration_hours c) (now e) fs).1.

(* a look-up or a save *)
Definition is_cache_event (ev : event) : bool :=
  match ev with CacheLookup _ | CacheSave _ => true | _ => false end.

(* a def statement for which the loop over ast.walk adds no issue *)
Definition is_clean (n : Ast.node) : bool :=
  match n with
  | Ast.FunctionDef _ a body =>
      (length (Ast.args a) <=? 5)%nat && negb (lacks_docstring body)
  | _ => true
  end.

End ScanViews.

(* the characters of lower-case hexadecimal *)
Definition is_hex (c : ascii) : bool :=
  let n := nat_of_ascii c in
  ((48 <=? n) && (n <=? 57) || (97 <=? n) && (n <=? 102))%nat.

Fixpoint all_chars (p : ascii -> bool) (s : string) : bool :=
  match s with
  | EmptyString => true
  | String c r => p c && all_chars p r
  end.

(** ** A concrete platform and concrete projects *)

Module Demo.
(* shell-style matching with * and ? (no bracket classes) *)
Fixpoint glob (pat name : string) : bool :=
  match pat with
  | EmptyString => String.eqb name EmptyString
  | String c pat' =>
      if Ascii.eqb c "*" then
        (fix star (s : string) : bool :=
           glob pat' s ||
           match s with
           | EmptyString => false
           | String _ s' => star s'
           end) name
      else
        match name with
        | EmptyString => false
        | String d name' => (Ascii.eqb c "?" || Ascii.eqb c d) && glob pat' name'
        end
  end.

(* a file of 50 lines: a function of seven parameters without docstring *)
Definition lines50 : list string :=
  "def handler(a, b, c, d, e, f, g):" :: "    return a" :: repeat "# padding" 48.
Definition source50 : string := concat_str (map (fun l => l +:+ Py.nl) lines50).
Definition handler_args : Ast.arguments :=
  {| Ast.posonlyargs := []; Ast.args := ["a"; "b"; "c"; "d"; "e"; "f"; "g"];
     Ast.vararg := None; Ast.kwonlyargs := []; Ast.kwarg := None |}.
Definition tree50 : Ast.node :=
  Ast.Module_ [Ast.FunctionDef "handler" handler_args [Ast.Simple]].

(* a class with a method that holds a function, and a function beside it *)
Definition source_nested : string :=
  concat_str (map (fun l => l +:+ Py.nl)
    ["class Box:";
     "    def get(self):";
     "        def inner():";
     "            return 1";
     "        return inner()";
     "";
     "def top():";
     "    return Box()"]).
Definition no_args : Ast.arguments :=
  {| Ast.posonlyargs := []; Ast.args := [];
     Ast.vararg := None; Ast.kwonlyargs := []; Ast.kwarg := None |}.
Definition self_arg : Ast.arguments :=
  {| Ast.posonlyargs := []; Ast.args := ["self"];
     Ast.vararg := None; Ast.kwonlyargs := []; Ast.kwarg := None |}.
Definition tree_nested : Ast.node :=
  Ast.Module_
    [Ast.ClassDef "Box"
       [Ast.FunctionDef "get" self_arg
          [Ast.FunctionDef "inner" no_args [Ast.Simple]; Ast.Simple]];
     Ast.FunctionDef "top" no_args [Ast.Simple]].

(* modification times in whole seconds; a parser that knows two files *)
Definition lib : PyLib :=
  {| mtime := Z;
     str_float := fun z => pretty z +:+ ".0";
     fnmatch := fun name pat => glob pat name;
     ast_parse := fun content =>
       if String.eqb content source50 then Returned tree50
       else if String.eqb content source_nested then Returned tree_nested
       else Raised (SyntaxError "invalid syntax");
     cleandoc := fun s => s;
     call_api := fun _ _ _ => "All good." |}.

(* the same with every modification time carried as the text str gives *)
Definition lib_repr : PyLib :=
  {| mtime := string;
     str_float := fun repr => repr;
     fnmatch := fun name pat => glob pat name;
     ast_parse := ast_parse (PyLib := lib);
     cleandoc := fun s => s;
     call_api := fun _ _ _ => "All good." |}.

Definition text_file (name : string) (st_mtime : Z) (content : string) : @file lib :=
  @Build_file lib name (Some (st_mtime, Z.of_nat (String.length content)))
              (Some content).

(* one file of 20 bytes *)
Definition one_file : @dir lib :=
  Dir [text_file "data.csv" 1700000000 "id,name,score,grades"] [].

(* a file at the top and a file in a sub-directory *)
Definition nested : @dir lib :=
  Dir [text_file "b.txt" 1700000000 "bb"]
      [("a", Dir [text_file "z.txt" 1700000000 "zz"] [])].

(* two sub-directories, and the same in the other listing order *)
Definition two_dirs : @dir lib :=
  Dir [] [("a", Dir [text_file "x.txt" 1700000000 "xx"] []);
          ("b", Dir [text_file "y.txt" 1700000000 "yy"] [])].
Definition two_dirs_relisted : @dir lib :=
  Dir [] [("b", Dir [text_file "y.txt" 1700000000 "yy"] []);
          ("a", Dir [text_file "x.txt" 1700000000 "xx"] [])].

(* a source file and its byte code, before and after the byte code is
   written again *)
Definition with_bytecode : @dir lib :=
  Dir [text_file "main.py" 1700000000 "print(1)";
       text_file "main.pyc" 1700000000 "bytecode"] [].

(* two files of 6 bytes, the second with " (" in its name *)
Definition two_sixes : @dir lib :=
  Dir [text_file "a.txt" 1700000000 "aaaaaa";
       text_file "b (old).txt" 1700000000 "bbbbbb"] [].

(* a file of 20 bytes whose name starts with that of a small one *)
Definition shadowed : @dir lib :=
  Dir [text_file "notes (old).txt" 1700000000 "0123456789abcdefghij";
       text_file "notes" 1700000000 "short"] [].

(* two files of 6MB *)
Definition six_mb (name : string) : @file lib :=
  @Build_file lib name (Some (1700000000, 6 * 1024 * 1024)) None.

Definition run_args (max_file_size : Z) : @args lib :=
  {| path := one_file; type_ := "CSV tools"; provider := "gemini"; ignore := None;
     max_file_size := max_file_size; max_total_size := DEFAULT_MAX_TOTAL_SIZE;
     no_cache := false; no_static_analysis := false |}.
Definition cfg : config := {| cache_enabled := true; cache_duration_hours := 24 |}.
(* a run at time 0 and a run an hour later *)
Definition env0 : env := {| api_key := Some "key"; now := 0; now_at_save := 5000000 |}.
Definition env1 : env :=
  {| api_key := Some "key"; now := 3600000000; now_at_save := 3605000000 |}.
End Demo.

(** * Proofs *)

(** ** The hash function on the test vectors of FIPS 180-4 *)

Example sha256_empty :
  Sha256.hexdigest EmptyString
  = "e3b0c44298fc1c149afbf4c8996fb92427ae41e4649b934ca495991b7852b855".
Proof. vm_compute. reflexivity. Qed.

Example sha256_abc :
  Sha256.hexdigest "abc"
  = "ba7816bf8f01cfea414140de5dae2223b00361a396177a9cb410ff61f20015ad".
Proof. vm_compute. reflexivity. Qed.

Example sha256_two_blocks :
  Sha256.hexdigest "abcdbcdecdefdefgefghfghighijhijkijkljklmklmnlmnomnopnopq"
  = "248d6a61d20638b8e5c026930c3e6039a33ce45964ff2167f6ecedd419db06c1".
Proof. vm_compute. reflexivity. Qed.

(** ** Strings *)

Lemma str_app_cons (x : ascii) (a b : string) : String x a +:+ b = String x (a +:+ b).
Proof. reflexivity. Qed.


Lemma str_app_assoc (a b c : string) : (a +:+ b) +:+ c = a +:+ (b +:+ c).
Proof.
  induction a as [|x a IH]; [done|]. by rewrite !str_app_cons, IH.
Qed.

Lemma str_app_nil_r (a : string) : a +:+ EmptyString = a.
Proof. induction a as [|x a IH]; [done|]. by rewrite str_app_cons, IH. Qed.




(** ** The stable sort *)

Section Sort.
Context {A : Type} (key : A -> string).

Lemma insert_by_perm x l : Permutation (Py.insert_by key x l) (x :: l).
Proof.
  induction l as [|y l IH]; cbn; [done|].
  destruct (String.leb (key x) (key y)); [done|].
  rewrite IH. apply perm_swap.
Qed.

Lemma sort_by_perm l : Permutation (Py.sort_by key l) l.
Proof.
  induction l as [|x l IH]; cbn; [done|].
  rewrite insert_by_perm. by constructor.
Qed.

Lemma insert_by_map (h : A -> A) x l :
  (forall y, key (h y) = key y) ->
  Py.insert_by key (h x) (map h l) = map h (Py.insert_by key x l).
Proof.
  intros Hk. induction l as [|y l IH]; cbn; [done|].
  rewrite !Hk. destruct (String.leb (key x) (key y)); cbn; [done|].
  by rewrite IH.
Qed.

Lemma sort_by_map (h : A -> A) l :
  (forall y, key (h y) = key y) ->
  Py.sort_by key (map h l) = map h (Py.sort_by key l).
Proof.
  intros Hk. induction l as [|x l IH]; cbn; [done|].
  unfold Py.sort_by in IH. rewrite IH. by apply insert_by_map.
Qed.
End Sort.

(** ** Induction on trees *)

Section TreeFacts.
Context `{L : PyLib}.

Lemma dir_rect' (P : dir -> Prop) :
  (forall files subdirs, Forall (fun p => P p.2) subdirs -> P (Dir files subdirs)) ->
  forall d, P d.
Proof.
  intros H. fix IH 1. intros [files subdirs]. apply H.
  induction subdirs as [|[n sub] rest IHl]; constructor; [apply IH | apply IHl].
Qed.
End TreeFacts.

Section LoopFacts.
Context `{L : PyLib}.


Lemma concat_str_app l1 l2 :
  concat_str (l1 ++ l2) = concat_str l1 +:+ concat_str l2.
Proof.
  induction l1 as [|x l1 IH]; [done|].
  cbn [app concat_str]. by rewrite IH, str_app_assoc.
Qed.

(** The loops as a fold over the files they get past their first two
    tests: an invariant of the state and the files seen so far. *)
Lemma loop_invariant {S : Type} (step : string -> S -> file -> S)
    (order : list file -> list file) (pats : list string)
    (P : S -> list (string * file) -> Prop) (st0 : S) (w : list (string * list file)) :
  P st0 [] ->
  (forall st seen root f,
      P st seen -> excluded pats root f = true -> P (step root st f) seen) ->
  (forall st seen root f,
      P st seen -> excluded pats root f = false ->
      P (step root st f) (seen ++ [(Py.path_join root (f_name f), f)])) ->
  P (foldl (fun st '(root, files) => foldl (step root) st (order files)) st0 w)
    (loop_files order pats w).
Proof.
  intros H0 Hex Hin.
  assert (forall w st seen, P st seen ->
    P (foldl (fun st '(root, files) => foldl (step root) st (order files)) st w)
      (seen ++ loop_files order pats w)) as Hgen.
  { clear w. intros w. induction w as [|[root files] w IH]; intros st seen HP.
    - cbn. by rewrite app_nil_r.
    - cbn [foldl loop_files flat_map].
      fold (loop_files order pats w). rewrite app_assoc. apply IH.
      generalize (order files) as fs. intros fs. revert st seen HP.
      induction fs as [|f fs IHf]; intros st seen HP.
      + cbn. by rewrite app_nil_r.
      + cbn [foldl List.filter].
        destruct (excluded pats root f) eqn:E; cbn [negb].
        * apply IHf. by apply Hex.
        * cbn [map]. rewrite (cons_middle _ seen), app_assoc.
          apply IHf. by apply Hin. }
  apply (Hgen w st0 [] H0).
Qed.

Lemma hash_file_excluded pats root h f :
  excluded pats root f = true -> hash_file pats root h f = h.
Proof.
  unfold excluded, hash_file. intros E.
  destruct (bool_decide _); [done|]. cbn in E. by rewrite E.
Qed.

Lemma hash_file_included pats root h f :
  excluded pats root f = false ->
  hash_file pats root h f = h +:+ hash_bytes (Py.path_join root (f_name f), f).
Proof.
  unfold excluded, hash_file, hash_bytes. intros E.
  destruct (bool_decide _); [done|]. cbn in E. rewrite E. cbn.
  destruct (f_stat f) as [[m s]|]; by rewrite ?str_app_assoc.
Qed.

(** What the hasher is given: the bytes of the hashed files, in order. *)
Lemma hash_updates_eq t pats :
  hash_updates t pats = concat_str (map hash_bytes (hashed t pats)).
Proof.
  unfold hash_updates, hashed, considered.
  apply (loop_invariant (hash_file pats) sorted pats
           (fun h seen => h = concat_str (map hash_bytes seen))).
  - done.
  - intros st seen root f -> E. by apply hash_file_excluded.
  - intros st seen root f -> E. rewrite hash_file_included by done.
    rewrite map_app, concat_str_app. cbn. by rewrite str_app_nil_r.
Qed.
End LoopFacts.

Section MapFiles.
Context `{L : PyLib}.

Lemma os_walk_map_files g keep :
  keeps_names g ->
  forall t root,
    os_walk keep root (map_files g root t)
    = map (fun '(r, files) => (r, map (fun f => g (Py.path_join r (f_name f)) f) files))
          (os_walk keep root t).
Proof.
  intros Hg. induction t as [files subdirs IH] using dir_rect'. intros root.
  cbn [map_files os_walk map]. f_equal.
  match goal with
  | |- context [map fst (?d subdirs)] =>
      assert (map fst (d subdirs) = map fst subdirs) as ->
  end.
  { clear IH. induction subdirs as [|[n sub] rest IHr]; cbn; [done|]. by rewrite IHr. }
  generalize (map fst subdirs) as dirs. intros dirs.
  induction IH as [|[n sub] rest Hsub _ IHr]; [done|].
  cbn [map]. rewrite map_app, <- IHr. f_equal.
  destruct (keep dirs n); [|done]. apply Hsub.
Qed.

Lemma excluded_keeps_names g pats root rel f :
  keeps_names g -> excluded pats root (g rel f) = excluded pats root f.
Proof. intros Hg. unfold excluded. by rewrite Hg. Qed.

Lemma loop_files_map g order pats w :
  keeps_names g ->
  (forall (h : file -> file) l,
      (forall y, f_name (h y) = f_name y) -> order (map h l) = map h (order l)) ->
  loop_files order pats
    (map (fun '(r, files) => (r, map (fun f => g (Py.path_join r (f_name f)) f) files)) w)
  = map (fun e => (e.1, g e.1 e.2)) (loop_files order pats w).
Proof.
  intros Hg Hord. induction w as [|[root files] w IH]; [done|].
  cbn [map loop_files flat_map]. fold (loop_files order pats w).
  rewrite map_app. unfold loop_files in IH. rewrite IH. f_equal.
  rewrite Hord by (intros y; apply Hg).
  generalize (order files) as fs. intros fs.
  induction fs as [|f fs IHf]; [done|].
  cbn [map List.filter]. rewrite excluded_keeps_names by done.
  destruct (excluded pats root f); cbn [negb map]; [done|].
  rewrite IHf. cbn. by rewrite Hg.
Qed.

Lemma considered_map_files g order pats t :
  keeps_names g ->
  (forall (h : file -> file) l,
      (forall y, f_name (h y) = f_name y) -> order (map h l) = map h (order l)) ->
  considered order pats (map_files g EmptyString t)
  = map (fun e => (e.1, g e.1 e.2)) (considered order pats t).
Proof.
  intros Hg Hord. unfold considered.
  rewrite os_walk_map_files by done. by apply loop_files_map.
Qed.

Lemma hashed_map_files g pats t :
  keeps_names g ->
  hashed (map_files g EmptyString t) pats
  = map (fun e => (e.1, g e.1 e.2)) (hashed t pats).
Proof.
  intros Hg. apply considered_map_files; [done|].
  intros h l Hh. by apply sort_by_map.
Qed.

Lemma scanned_map_files g pats t :
  keeps_names g ->
  scanned (map_files g EmptyString t) pats
  = map (fun e => (e.1, g e.1 e.2)) (scanned t pats).
Proof. intros Hg. by apply considered_map_files. Qed.

Lemma touch_keeps_names p m : keeps_names (touch p m).
Proof. intros rel f. unfold touch. by destruct (String.eqb rel p). Qed.


Lemma rewrite_keeps_names text : keeps_names (rewrite text).
Proof. done. Qed.

End MapFiles.

Section Changes.
Context `{L : PyLib}.

Lemma loop_files_perm order1 order2 pats w :
  (forall l, Permutation (order1 l) (order2 l)) ->
  Permutation (loop_files order1 pats w) (loop_files order2 pats w).
Proof.
  intros Hord. induction w as [|[root files] w IH]; [done|].
  cbn [loop_files flat_map]. apply Permutation_app; [|apply IH].
  apply Permutation_map. induction (Hord files); cbn [List.filter].
  - done.
  - destruct (negb _); [by constructor | done].
  - repeat destruct (negb _); try done. apply perm_swap.
  - by etrans.
Qed.

(** The hash and the scan look at the same files; the hash takes each
    directory's files in sorted order. *)
Lemma hashed_scanned t pats : Permutation (hashed t pats) (scanned t pats).
Proof.
  unfold hashed, scanned, considered. apply loop_files_perm.
  intros l. apply sort_by_perm.
Qed.




Lemma descend_names (subdirs : list (string * dir)) :
  forall (step : string -> dir -> dir),
    map fst ((fix descend (l : list (string * dir)) : list (string * dir) :=
                match l with
                | [] => []
                | (n, sub) :: r => (n, step n sub) :: descend r
                end) subdirs) = map fst subdirs.
Proof.
  intros step. induction subdirs as [|[n sub] rest IH]; cbn; [done|]. by rewrite IH.
Qed.

End Changes.

Section BudgetFacts.
Context `{L : PyLib}.

Lemma budget_file_excluded pats mf mt root st f :
  excluded pats root f = true -> budget_file pats mf mt root st f = st.
Proof.
  unfold excluded, budget_file. intros E.
  destruct (bool_decide _); [done|]. cbn in E. by rewrite E.
Qed.

(* the three ways the first pass treats a file it gets to look at *)
Lemma budget_file_included pats mf mt root st f :
  excluded pats root f = false ->
  let rel := Py.path_join root (f_name f) in
  budget_file pats mf mt root st f =
    match f_stat f with
    | None => st
    | Some (m, size) =>
        if mf <? size then
          {| file_count := file_count st; total_size := total_size st;
             skipped_files := skipped_files st ++ [size_skip rel size];
             counted := counted st |}
        else if mt <? total_size st + size then
          {| file_count := file_count st; total_size := total_size st;
             skipped_files := skipped_files st ++ [total_skip rel];
             counted := counted st |}
        else
          {| file_count := S (file_count st); total_size := total_size st + size;
             skipped_files := skipped_files st;
             counted := counted st ++ [(rel, m, size)] |}
    end.
Proof.
  unfold excluded, budget_file. intros E.
  destruct (bool_decide _); [done|]. cbn in E. by rewrite E.
Qed.

Lemma sum_sizes_app l1 l2 : sum_sizes (l1 ++ l2) = sum_sizes l1 + sum_sizes l2.
Proof.
  induction l1 as [|x l1 IH]; [done|]. cbn [app].
  change (sum_sizes (x :: l1 ++ l2)) with (x.2 + sum_sizes (l1 ++ l2)).
  change (sum_sizes (x :: l1)) with (x.2 + sum_sizes l1). lia.
Qed.

(** The running totals are those of the counted files. *)
Lemma budget_pass_totals t pats mf mt :
  let st := budget_pass t pats mf mt in
  file_count st = length (counted st) /\ total_size st = sum_sizes (counted st).
Proof.
  unfold budget_pass.
  apply (loop_invariant (budget_file pats mf mt) (fun files => files) pats
           (fun st _ => file_count st = length (counted st)
                        /\ total_size st = sum_sizes (counted st))).
  - done.
  - intros st seen root f HP E. by rewrite budget_file_excluded.
  - intros st seen root f [Hc Ht] E. rewrite budget_file_included by done.
    destruct (f_stat f) as [[m size]|]; [|done].
    destruct (mf <? size); [done|].
    destruct (mt <? total_size st + size); [done|].
    cbn [file_count total_size counted].
    rewrite length_app, sum_sizes_app.
    change (sum_sizes [(Py.path_join root (f_name f), m, size)]) with (size + 0).
    cbn [length]. split; lia.
Qed.

(** Every file the first pass counts or skips is one it got to look at. *)
Lemma budget_pass_sound t pats mf mt :
  let st := budget_pass t pats mf mt in
  (forall rel m size, In (rel, m, size) (counted st) ->
     exists f, In (rel, f) (scanned t pats) /\ f_stat f = Some (m, size))
  /\ (forall x, In x (skipped_files st) ->
     exists rel f m size, In (rel, f) (scanned t pats) /\ f_stat f = Some (m, size)
       /\ (x = size_skip rel size /\ mf < size \/ x = total_skip rel /\ size <= mf)).
Proof.
  unfold budget_pass, scanned, considered.
  apply (loop_invariant (budget_file pats mf mt) (fun files => files) pats
    (fun st seen =>
      (forall rel m size, In (rel, m, size) (counted st) ->
         exists f, In (rel, f) seen /\ f_stat f = Some (m, size))
      /\ (forall x, In x (skipped_files st) ->
         exists rel f m size, In (rel, f) seen /\ f_stat f = Some (m, size)
           /\ (x = size_skip rel size /\ mf < size \/ x = total_skip rel /\ size <= mf)))).
  - split; intros; by cbn in *.
  - intros st seen root f HP E. by rewrite budget_file_excluded.
  - intros st seen root f [Hc Hs] E. rewrite budget_file_included by done.
    assert (forall rel m size,
      In (rel, m, size) (counted st) ->
      exists f0, In (rel, f0) (seen ++ [(Py.path_join root (f_name f), f)])
                 /\ f_stat f0 = Some (m, size)) as Hc'.
    { intros rel m size Hin. destruct (Hc _ _ _ Hin) as (f0 & ? & ?).
      exists f0. split; [apply in_or_app; by left | done]. }
    assert (forall x, In x (skipped_files st) ->
      exists rel f0 m size, In (rel, f0) (seen ++ [(Py.path_join root (f_name f), f)])
        /\ f_stat f0 = Some (m, size)
        /\ (x = size_skip rel size /\ mf < size \/ x = total_skip rel /\ size <= mf)) as Hs'.
    { intros x Hin. destruct (Hs _ Hin) as (rel & f0 & m & size & ? & ? & ?).
      exists rel, f0, m, size. split; [apply in_or_app; by left | done]. }
    destruct (f_stat f) as [[m size]|] eqn:Est; [|by split].
    destruct (Z.ltb_spec mf size) as [Hlt|Hge].
    { split; [done|]. cbn. intros x [Hin| [<-|[]]]%in_app_or; [by apply Hs'|].
      exists (Py.path_join root (f_name f)), f, m, size.
      split; [apply in_or_app; right; by left|]. split; [done|]. by left. }
    destruct (mt <? total_size st + size).
    { split; [done|]. cbn. intros x [Hin| [<-|[]]]%in_app_or; [by apply Hs'|].
      exists (Py.path_join root (f_name f)), f, m, size.
      split; [apply in_or_app; right; by left|]. split; [done|]. by right. }
    split; [|done]. cbn. intros rel m' size' [Hin| [Heq|[]]]%in_app_or; [by apply Hc'|].
    injection Heq as <- <- <-. exists f. split; [apply in_or_app; right; by left | done].
Qed.
End BudgetFacts.

Module AstFacts.
Import Ast.

Lemma size_children n : size n = S (sizes (iter_child_nodes n)).
Proof.
  destruct n as [body|? ? body|? ? body|? body| |body|]; cbn [size iter_child_nodes];
    try done; f_equal; induction body as [|m r IH]; cbn; try done; by rewrite IH.
Qed.

Lemma nodes_children n : nodes n = n :: flat_map nodes (iter_child_nodes n).
Proof.
  destruct n as [body|? ? body|? ? body|? body| |body|]; cbn [nodes iter_child_nodes];
    try done; f_equal; induction body as [|m r IH]; cbn [flat_map]; try done;
    by rewrite IH.
Qed.

Lemma count_nodes_children p n :
  count_nodes p n
  = ((if p n then 1 else 0)
     + foldr (fun m acc => count_nodes p m + acc) O (iter_child_nodes n))%nat.
Proof.
  destruct n as [body|? ? body|? ? body|? body| |body|];
    cbn [count_nodes iter_child_nodes foldr]; try done; f_equal;
    induction body as [|m r IH]; cbn [foldr]; try done; by rewrite IH.
Qed.

Lemma sizes_app l1 l2 : sizes (l1 ++ l2) = (sizes l1 + sizes l2)%nat.
Proof.
  induction l1 as [|n l1 IH]; [done|]. cbn [app].
  change (sizes (n :: l1 ++ l2)) with (size n + sizes (l1 ++ l2))%nat.
  change (sizes (n :: l1)) with (size n + sizes l1)%nat. lia.
Qed.

(** The queue of ast.walk empties within the fuel, and every node of
    the trees in it is yielded once. *)
Lemma walk_from_perm fuel todo :
  (sizes todo <= fuel)%nat ->
  Permutation (walk_from fuel todo) (flat_map nodes todo).
Proof.
  revert todo. induction fuel as [|fuel IH]; intros [|n rest] Hle; cbn [walk_from flat_map].
  - done.
  - change (sizes (n :: rest)) with (size n + sizes rest)%nat in Hle.
    rewrite size_children in Hle. lia.
  - done.
  - rewrite nodes_children. cbn [app]. constructor.
    rewrite IH.
    + rewrite flat_map_app. apply Permutation_app_comm.
    + rewrite sizes_app.
      change (sizes (n :: rest)) with (size n + sizes rest)%nat in Hle.
      rewrite size_children in Hle. lia.
Qed.

Lemma walk_perm tree : Permutation (walk tree) (nodes tree).
Proof.
  unfold walk. rewrite walk_from_perm.
  - cbn [flat_map]. by rewrite app_nil_r.
  - change (sizes [tree]) with (size tree + 0)%nat. lia.
Qed.

Lemma filter_perm {A} (p : A -> bool) (l1 l2 : list A) :
  Permutation l1 l2 -> Permutation (List.filter p l1) (List.filter p l2).
Proof.
  induction 1; cbn [List.filter]; try done.
  - destruct (p x); [by constructor | done].
  - destruct (p x), (p y); try done. apply perm_swap.
  - by etrans.
Qed.

Lemma count_nodes_filter p n :
  count_nodes p n = length (List.filter p (nodes n)).
Proof.
  revert n. fix IH 1. intros n.
  rewrite count_nodes_children, nodes_children. cbn [List.filter].
  assert (foldr (fun m acc => (count_nodes p m + acc)%nat) O (iter_child_nodes n)
          = length (List.filter p (flat_map nodes (iter_child_nodes n)))) as ->.
  { destruct n as [body|? ? body|? ? body|? body| |body|]; cbn [iter_child_nodes];
      try done;
      induction body as [|m r IHr]; cbn [foldr flat_map]; try done;
      rewrite List.filter_app, length_app, IHr, IH; done. }
  destruct (p n); cbn; lia.
Qed.

(** The counts taken over ast.walk are the counts by recursion on the
    tree. *)
Lemma walk_count p tree :
  length (List.filter p (walk tree)) = count_nodes p tree.
Proof.
  rewrite count_nodes_filter. apply Permutation_length, filter_perm, walk_perm.
Qed.
End AstFacts.

Section Lines.


End Lines.

Section AnalyzerFacts.
Context `{L : PyLib}.
Import Ast.




Lemma filter_filter_classes l :
  List.filter is_ClassDef (List.filter is_definition l) = List.filter is_ClassDef l.
Proof.
  induction l as [|n l IH]; [done|]. cbn [List.filter].
  destruct n; cbn [is_definition is_ClassDef List.filter]; by rewrite ?IH.
Qed.

(** What the analysis of a Python file that parses returns. *)
Lemma perform_static_analysis_parsed path content tree :
  Py.endswith path ".py" = true ->
  ast_parse content = Returned tree ->
  perform_static_analysis path content =
    Returned
      {| file_path := path;
         lines_of_code := length (Py.splitlines content);
         size_bytes := String.length content;
         structure := Some {| functions := count_defs tree;
                              classes := count_classes tree;
                              complexity_score := (count_defs tree + count_classes tree * 2)%nat |};
         issues := flat_map node_issues (walk tree) |}.
Proof.
  intros Hpy Hparse. unfold perform_static_analysis. rewrite Hpy.
  unfold analyze_python. rewrite Hparse. cbn [bind try_except].
  unfold add_issues, update_structure. cbn.
  by rewrite !AstFacts.walk_count.
Qed.

(** C10. For a Python file that parses, complexity_score is the number
    of def statements plus twice the number of class statements of the
    tree, counted by recursion through every body, nested ones included. *)
Theorem complexity_score_counts_nested path content tree :
  Py.endswith path ".py" = true ->
  ast_parse content = Returned tree ->
  exists a,
    perform_static_analysis path content = Returned a
    /\ structure a = Some {| functions := count_defs tree;
                             classes := count_classes tree;
                             complexity_score := (count_defs tree + 2 * count_classes tree)%nat |}.
Proof.
  intros Hpy Hparse. eexists. split; [by apply perform_static_analysis_parsed|].
  cbn. do 2 f_equal. lia.
Qed.


End AnalyzerFacts.


Section MainFacts.
Context `{L : PyLib}.

Lemma read_project_files_empty a :
  empty_scan a ->
  read_project_files (path a) (ignore a) (max_file_size a) (max_total_size a)
                     (negb (no_static_analysis a)) = inl NoReadableFiles.
Proof. unfold empty_scan, read_project_files. by intros ->. Qed.

(** C2 (amended). When the first pass counts no file, read_project_files
    exits before its second pass: nothing is read, analysed or diagnosed,
    and nothing is saved.  main looks in the cache first when the cache is
    in use: a fresh, non-empty entry under the fingerprint is returned as
    the report; otherwise, given an API key, the run ends with the
    empty-project exit, after the cache lookup (if any) and the first
    pass. *)
Theorem empty_project_outcome a c e fs :
  empty_scan a ->
  let r := main a c e fs in
  let key := calculate_project_hash (path a) (default [] (ignore a)) in
  let got := get_cached_result key (cache_duration_hours c) (now e) fs in
  read_project_files (path a) (ignore a) (max_file_size a) (max_total_size a)
                     (negb (no_static_analysis a)) = inl NoReadableFiles
  /\ (forall ev, In ev (trace r) -> ev = CacheLookup key \/ ev = BudgetPass)
  /\ (forall text, outcome_of r = CachedReport text <->
        uses_cache a c = true /\ got.1 = Some text /\ text <> EmptyString)
  /\ (outcome_of r = Exit EmptyProject <->
        (uses_cache a c = true -> truthy got.1 = false) /\ get_api_key e <> None)
  /\ (outcome_of r = Exit EmptyProject ->
        trace r = (if uses_cache a c then [CacheLookup key] else []) ++ [BudgetPass]
        /\ cache_after r = (if uses_cache a c then got.2 else fs))
  /\ (forall text, outcome_of r <> Report text).
Proof.
  intros Hempty. cbn zeta. split; [by apply read_project_files_empty|].
  unfold main. fold (uses_cache a c).
  rewrite read_project_files_empty by done.
  destruct (uses_cache a c).
  - destruct (get_cached_result _ _ _ fs) as [r fs'] eqn:Eg. cbn [fst snd].
    destruct (truthy r) eqn:Et.
    + destruct r as [text|]; [|done]. cbn in Et. cbn.
      apply negb_true_iff, String.eqb_neq in Et.
      split_and!; try done.
      * intros ev [<-|[]]. by left.
      * intros text'. split; [by intros [= <-] | by intros (_ & [= <-] & _)].
      * split; [done|]. intros [Hf _]. by specialize (Hf eq_refl).
    + assert (forall text, r = Some text -> text = EmptyString) as Hr.
      { intros text ->. cbn in Et. by apply negb_false_iff, String.eqb_eq in Et. }
      destruct (get_api_key e) as [k|] eqn:Ek; cbn.
      * split_and!; try done.
        -- intros ev [<-|[<-|[]]]; [by left | by right].
        -- intros text. split; [done|]. intros (_ & ->%Hr & Hne). done.
      * split_and!; try done.
        -- intros ev [<-|[]]. by left.
        -- intros text. split; [done|]. intros (_ & ->%Hr & Hne). done.
        -- split; [done|]. by intros [_ ?].
  - cbn. destruct (get_api_key e) as [k|] eqn:Ek; cbn.
    + split_and!; try done.
      * intros ev [<-|[]]. by right.
      * intros text. split; [done|]. by intros (? & _).
    + split_and!; try done.
      * intros text. split; [done|]. by intros (? & _).
      * split; [done|]. by intros [_ ?].
Qed.
End MainFacts.

Section ReadFacts.
Context `{L : PyLib}.

Lemma read_file_excluded pats mf en skipped root st f :
  excluded pats root f = true -> read_file pats mf en skipped root st f = st.
Proof.
  unfold excluded, read_file. intros E.
  destruct (bool_decide _); [done|]. cbn in E. by rewrite E.
Qed.

(** Every text the second pass keeps is that of a file it got to look
    at, within the single-file limit and not matched by the skip list. *)
Lemma read_pass_sound t pats mf en skipped :
  forall x, In x (all_files_content (read_pass t pats mf en skipped)) ->
    exists rel f m size content,
      In (rel, f) (scanned t pats) /\ f_stat f = Some (m, size)
      /\ f_text f = Some content /\ x = formatted_content rel content
      /\ size <= mf /\ ~ In rel (map (Py.split_head " (") skipped).
Proof.
  unfold read_pass, scanned, considered.
  apply (loop_invariant (read_file pats mf en skipped) (fun files => files) pats
    (fun st seen =>
      forall x, In x (all_files_content st) ->
        exists rel f m size content,
          In (rel, f) seen /\ f_stat f = Some (m, size)
          /\ f_text f = Some content /\ x = formatted_content rel content
          /\ size <= mf /\ ~ In rel (map (Py.split_head " (") skipped))).
  - intros x [].
  - intros st seen root f HP E. by rewrite read_file_excluded.
  - intros st seen root f HP E.
    assert (forall x, In x (all_files_content st) ->
      exists rel f0 m size content,
        In (rel, f0) (seen ++ [(Py.path_join root (f_name f), f)])
        /\ f_stat f0 = Some (m, size)
        /\ f_text f0 = Some content /\ x = formatted_content rel content
        /\ size <= mf /\ ~ In rel (map (Py.split_head " (") skipped)) as HP'.
    { intros x Hin. destruct (HP _ Hin) as (rel & f0 & m & size & content & ? & ?).
      exists rel, f0, m, size, content. split; [apply in_or_app; by left | done]. }
    unfold read_file. unfold excluded in E.
    destruct (bool_decide (Py.splitext_ext _ ∈ _)); [done|]. cbn in E. rewrite E.
    destruct (f_stat f) as [[m size]|] eqn:Est; [|done].
    destruct (Z.ltb_spec mf size) as [Hlt|Hge]; cbn [orb]; [done|].
    destruct (bool_decide_reflect
                (Py.path_join root (f_name f) ∈ map (Py.split_head " (") skipped))
      as [Hin|Hnin]; [done|].
    destruct (f_text f) as [content|] eqn:Etxt; [|done].
    assert (forall x,
      In x (all_files_content st
            ++ [formatted_content (Py.path_join root (f_name f)) content]) ->
      exists rel f0 m0 size0 content0,
        In (rel, f0) (seen ++ [(Py.path_join root (f_name f), f)])
        /\ f_stat f0 = Some (m0, size0)
        /\ f_text f0 = Some content0 /\ x = formatted_content rel content0
        /\ size0 <= mf /\ ~ In rel (map (Py.split_head " (") skipped)) as Hnew.
    { intros x [Hin|[<-|[]]]%in_app_or; [by apply HP'|].
      exists (Py.path_join root (f_name f)), f, m, size, content.
      split; [apply in_or_app; right; by left|].
      repeat (split; [done|]). intros Hin. apply Hnin. by apply list_elem_of_In. }
    destruct en; [destruct (perform_static_analysis _ _)|]; exact Hnew.
Qed.
End ReadFacts.

Section SortUnique.
Context {A : Type} (key : A -> string).

Lemma leb_false_flip a b : String.leb a b = false -> String.leb b a = true.
Proof. intros H. destruct (String.leb_total a b) as [E|E]; [congruence | done]. Qed.

Lemma leb_trans a b c :
  String.leb a b = true -> String.leb b c = true -> String.leb a c = true.
Proof.
  intros H1 H2. apply Is_true_true. apply Is_true_true in H1, H2.
  exact (transitivity (R := String.le) H1 H2).
Qed.

Lemma insert_by_comm x y l :
  key x <> key y ->
  Py.insert_by key x (Py.insert_by key y l) = Py.insert_by key y (Py.insert_by key x l).
Proof.
  intros Hne. induction l as [|z r IH]; cbn [Py.insert_by].
  - destruct (String.leb (key x) (key y)) eqn:Exy, (String.leb (key y) (key x)) eqn:Eyx;
      try done.
    + destruct Hne. by apply String.leb_antisym.
    + apply leb_false_flip in Exy. congruence.
  - destruct (String.leb (key x) (key z)) eqn:Exz, (String.leb (key y) (key z)) eqn:Eyz;
      cbn [Py.insert_by]; rewrite ?Exz, ?Eyz.
    + destruct (String.leb (key x) (key y)) eqn:Exy, (String.leb (key y) (key x)) eqn:Eyx;
        try done.
      * destruct Hne. by apply String.leb_antisym.
      * apply leb_false_flip in Exy. congruence.
    + destruct (String.leb (key y) (key x)) eqn:Eyx; [|done].
      pose proof (leb_trans _ _ _ Eyx Exz). congruence.
    + destruct (String.leb (key x) (key y)) eqn:Exy; [|done].
      pose proof (leb_trans _ _ _ Exy Eyz). congruence.
    + by rewrite IH.
Qed.

(** Lists with the same elements and no two equal keys sort to the same
    list. *)
Lemma sort_by_unique l l' :
  Permutation l l' -> NoDup (map key l) -> Py.sort_by key l = Py.sort_by key l'.
Proof.
  induction 1 as [|x l l' HP IH|x y l|l1 l2 l3 HP1 IH1 HP2 IH2]; intros Hnd.
  - done.
  - cbn. apply NoDup_cons in Hnd as [_ Hnd]. unfold Py.sort_by in IH. by rewrite IH.
  - cbn. apply insert_by_comm.
    cbn in Hnd. apply NoDup_cons in Hnd as [Hy _]. intros Heq. apply Hy.
    rewrite Heq. left.
  - rewrite IH1 by done. apply IH2. by rewrite <- HP1.
Qed.
End SortUnique.

Section Reorder.
Context `{L : PyLib}.

Lemma os_walk_reorder perm keep t : forall root,
  os_walk keep root (reorder_files perm t)
  = map (fun '(r, files) => (r, perm files)) (os_walk keep root t).
Proof.
  induction t as [files subdirs IH] using dir_rect'. intros root.
  cbn [reorder_files os_walk map]. f_equal.
  rewrite (descend_names subdirs (fun _ sub => reorder_files perm sub)).
  generalize (map fst subdirs) as dirs. intros dirs.
  induction IH as [|[n sub] rest Hsub _ IHr]; [done|].
  cbn [map]. rewrite map_app, <- IHr. f_equal.
  destruct (keep dirs n); [|done]. apply Hsub.
Qed.

Lemma os_walk_distinct keep t : forall root,
  distinct_names t ->
  Forall (fun e : string * list file => NoDup (map f_name e.2)) (os_walk keep root t).
Proof.
  induction t as [files subdirs IH] using dir_rect'. intros root Hd.
  inversion Hd as [? ? Hfiles Hsubs]; subst.
  cbn [os_walk]. constructor; [done|].
  generalize (map fst subdirs) as dirs. intros dirs.
  induction IH as [|[n sub] rest Hsub _ IHr]; [constructor|].
  apply Forall_cons in Hsubs as [Hs Hrest].
  apply Forall_app. split; [|by apply IHr].
  destruct (keep dirs n); [by apply Hsub | constructor].
Qed.

(** The order in which a directory lists its files does not reach the
    hash: the names are sorted first. *)
Lemma hash_updates_reorder_files perm t pats :
  (forall l, Permutation (perm l) l) ->
  distinct_names t ->
  hash_updates (reorder_files perm t) pats = hash_updates t pats.
Proof.
  intros Hperm Hd. rewrite !hash_updates_eq.
  assert (hashed (reorder_files perm t) pats = hashed t pats) as ->; [|done].
  unfold hashed, considered. rewrite os_walk_reorder.
  pose proof (os_walk_distinct (keep_dir pats) t EmptyString Hd) as Hnd.
  induction Hnd as [|[root files] w Hfiles _ IHw]; [done|].
  cbn [map loop_files flat_map]. cbn [snd] in Hfiles.
  unfold loop_files in IHw. rewrite IHw. f_equal.
  unfold sorted. rewrite (sort_by_unique f_name files (perm files)); [done| |done].
  symmetry. apply Hperm.
Qed.
End Reorder.

Section Fingerprint.
Context `{L : PyLib}.

Lemma hash_bytes_stat rel f m size :
  f_stat f = Some (m, size) ->
  hash_bytes (rel, f) = (rel +:+ str_float m) +:+ pretty size.
Proof. unfold hash_bytes. cbn. by intros ->. Qed.

Lemma hash_updates_rewrite text t pats :
  hash_updates (map_files (rewrite text) EmptyString t) pats = hash_updates t pats.
Proof.
  rewrite !hash_updates_eq, hashed_map_files by apply rewrite_keeps_names.
  f_equal. rewrite map_map. apply map_ext. by intros [rel f].
Qed.

(** C1 (amended). The fingerprint is the SHA-256 digest of the bytes of
    the files that pass the ignore rules, directory by directory in walk
    order and by sorted name within a directory; the size limits play no
    part in it.  Those files are the ones the two passes of the scan get
    to look at: every file the first pass counts gives its path, its
    modification time and its size to the hash, every file it skips for
    its size or for the total does so too, every text the second pass
    reads is that of a hashed file, and the texts of the files do not
    enter the hash. *)
Theorem fingerprint_covers_scanned_files t pats mf mt :
  let st := budget_pass t pats mf mt in
  calculate_project_hash t pats
  = Sha256.hexdigest (concat_str (map hash_bytes (hashed t pats)))
  /\ Permutation (hashed t pats) (scanned t pats)
  /\ (forall rel m size, In (rel, m, size) (counted st) ->
        exists f, In (rel, f) (hashed t pats)
                  /\ hash_bytes (rel, f) = (rel +:+ str_float m) +:+ pretty size)
  /\ (forall x, In x (skipped_files st) ->
        exists rel f m size,
          In (rel, f) (hashed t pats)
          /\ hash_bytes (rel, f) = (rel +:+ str_float m) +:+ pretty size
          /\ (x = size_skip rel size /\ mf < size \/ x = total_skip rel /\ size <= mf))
  /\ (forall en x, In x (all_files_content (read_pass t pats mf en (skipped_files st))) ->
        exists rel f content,
          In (rel, f) (hashed t pats) /\ x = formatted_content rel content)
  /\ (forall text,
        calculate_project_hash (map_files (rewrite text) EmptyString t) pats
        = calculate_project_hash t pats).
Proof.
  cbn zeta. pose proof (hashed_scanned t pats) as HP.
  destruct (budget_pass_sound t pats mf mt) as [Hc Hs].
  split_and!.
  - unfold calculate_project_hash. by rewrite hash_updates_eq.
  - done.
  - intros rel m size (f & Hin & Hst)%Hc. exists f. split.
    + by apply (Permutation_in _ (Permutation_sym HP)).
    + by apply hash_bytes_stat.
  - intros x (rel & f & m & size & Hin & Hst & Hx)%Hs. exists rel, f, m, size.
    split; [by apply (Permutation_in _ (Permutation_sym HP))|].
    split; [by apply hash_bytes_stat | done].
  - intros en x (rel & f & m & size & content & Hin & _ & _ & -> & _)%read_pass_sound.
    exists rel, f, content. split; [|done].
    by apply (Permutation_in _ (Permutation_sym HP)).
  - intros text. unfold calculate_project_hash. by rewrite hash_updates_rewrite.
Qed.







End Fingerprint.

(** A path that does not contain " (" is what split gives back from its
    skip string. *)
Lemma split_head_skip (s r : string) :
  Py.contains " (" s = false -> Py.split_head " (" (s +:+ " (" +:+ r) = s.
Proof.
  induction s as [|c s IH]; intros Hc.
  - by destruct r.
  - cbn [Py.contains] in Hc. apply orb_false_iff in Hc as [Hp Hc].
    rewrite str_app_cons. cbn [Py.split_head].
    assert (String.prefix " (" (String c (s +:+ " (" +:+ r)) = false) as ->.
    { cbn [String.prefix] in *.
      destruct (ascii_dec " " c) as [Heq|Hne]; [subst c | reflexivity].
      destruct s as [|d s]; [reflexivity|].
      rewrite str_app_cons. cbn [String.prefix] in *.
      destruct (ascii_dec "(" d); [|reflexivity]. by destruct s. }
    by rewrite IH.
Qed.

Section ReadFile.
Context `{L : PyLib}.

Lemma perform_static_analysis_returns path content :
  exists a, perform_static_analysis path content = Returned a.
Proof.
  unfold perform_static_analysis.
  destruct (Py.endswith path ".py").
  - unfold analyze_python.
    destruct (ast_parse content) as [tree|[msg|msg]]; cbn [bind try_except]; by eexists.
  - destruct (existsb _ _); by eexists.
Qed.

Lemma read_file_included pats mf en skipped root st f m size content :
  excluded pats root f = false ->
  f_stat f = Some (m, size) -> size <= mf ->
  f_text f = Some content ->
  let rel := Py.path_join root (f_name f) in
  all_files_content (read_file pats mf en skipped root st f)
  = if bool_decide (rel ∈ map (Py.split_head " (") skipped)
    then all_files_content st
    else all_files_content st ++ [formatted_content rel content].
Proof.
  intros E Hst Hsz Htxt. cbn zeta. unfold read_file. unfold excluded in E.
  destruct (bool_decide (Py.splitext_ext _ ∈ _)); [done|]. cbn in E. rewrite E, Hst.
  destruct (Z.ltb_spec mf size); [lia|]. cbn [orb].
  destruct (bool_decide _); [done|]. rewrite Htxt.
  destruct en; [|done].
  by destruct (perform_static_analysis_returns (Py.path_join root (f_name f)) content)
    as [a ->].
Qed.

Lemma read_file_listed pats mf en skipped root st f :
  excluded pats root f = false ->
  bool_decide (Py.path_join root (f_name f) ∈ map (Py.split_head " (") skipped) = true ->
  read_file pats mf en skipped root st f = st.
Proof.
  intros E Hin. unfold read_file. unfold excluded in E.
  destruct (bool_decide (Py.splitext_ext _ ∈ _)); [done|]. cbn in E. rewrite E, Hin.
  destruct (f_stat f) as [[m size]|]; [|done]. by rewrite orb_true_r.
Qed.
End ReadFile.

Section Budget.
Context `{L : PyLib}.

Lemma path_join_top name : Py.path_join EmptyString name = name.
Proof. reflexivity. Qed.

(** C6. Two files of 6MB with a total limit of 10MB and a single-file
    limit of 6MB or more: the first is counted and the second is recorded
    as skipped for the total.  A file skipped for the total leaves the
    running total as it was, and the running total is always the sum of
    the sizes of the counted files.  When the name of the second file holds
    no " (" and is not that of the first, the second pass reads the first
    file and not the second. *)
Theorem cumulative_budget pats mf (f1 f2 : file) m1 m2 :
  f_stat f1 = Some (m1, 6 * 1024 * 1024) ->
  f_stat f2 = Some (m2, 6 * 1024 * 1024) ->
  excluded pats EmptyString f1 = false ->
  excluded pats EmptyString f2 = false ->
  6 * 1024 * 1024 <= mf ->
  let st := budget_pass (Dir [f1; f2] []) pats mf (10 * 1024 * 1024) in
  (counted st = [(f_name f1, m1, 6 * 1024 * 1024)]
   /\ skipped_files st = [f_name f2 +:+ " (total size limit reached)"]
   /\ file_count st = 1%nat
   /\ total_size st = 6 * 1024 * 1024)
  /\ (forall mt root st0 f m size,
        excluded pats root f = false -> f_stat f = Some (m, size) ->
        size <= mf -> mt < total_size st0 + size ->
        let st1 := budget_file pats mf mt root st0 f in
        total_size st1 = total_size st0 /\ file_count st1 = file_count st0
        /\ counted st1 = counted st0
        /\ skipped_files st1
           = skipped_files st0 ++ [Py.path_join root (f_name f)
                                   +:+ " (total size limit reached)"])
  /\ (forall t mt,
        total_size (budget_pass t pats mf mt) = sum_sizes (counted (budget_pass t pats mf mt))
        /\ file_count (budget_pass t pats mf mt)
           = length (counted (budget_pass t pats mf mt)))
  /\ (forall en text1,
        Py.contains " (" (f_name f2) = false -> f_name f1 <> f_name f2 ->
        f_text f1 = Some text1 ->
        all_files_content (read_pass (Dir [f1; f2] []) pats mf en (skipped_files st))
        = [formatted_content (f_name f1) text1]).
Proof.
  intros H1 H2 E1 E2 Hmf. cbn zeta.
  assert (budget_pass (Dir [f1; f2] []) pats mf (10 * 1024 * 1024)
          = {| file_count := 1; total_size := 6 * 1024 * 1024;
               skipped_files := [total_skip (f_name f2)];
               counted := [(f_name f1, m1, 6 * 1024 * 1024)] |}) as Hpass.
  { assert ((10 * 1024 * 1024 <? 0 + 6 * 1024 * 1024) = false) as Hc1 by reflexivity.
    assert ((10 * 1024 * 1024 <? 0 + 6 * 1024 * 1024 + 6 * 1024 * 1024) = true) as Hc2
      by reflexivity.
    unfold budget_pass. cbn [os_walk foldl app].
    rewrite (budget_file_included pats mf _ EmptyString _ f1) by done.
    rewrite H1. destruct (Z.ltb_spec mf (6 * 1024 * 1024)); [lia|].
    cbn [total_size]. rewrite Hc1.
    rewrite (budget_file_included pats mf _ EmptyString _ f2) by done.
    rewrite H2. destruct (Z.ltb_spec mf (6 * 1024 * 1024)); [lia|].
    cbn [total_size]. rewrite Hc2.
    cbn [counted skipped_files file_count total_size app]. done. }
  rewrite Hpass. cbn [counted skipped_files file_count total_size].
  split; [by split_and!|]. split; [|split].
  - intros mt root st0 f m size E Hst Hsz Hmt. cbn zeta.
    rewrite budget_file_included by done. rewrite Hst.
    destruct (Z.ltb_spec mf size); [lia|].
    destruct (Z.ltb_spec mt (total_size st0 + size)); [|lia]. done.
  - intros t mt. destruct (budget_pass_totals t pats mf mt) as [Hc Ht]. by split.
  - intros en text1 Hname Hdiff Htxt.
    unfold read_pass. cbn [os_walk foldl app].
    assert (map (Py.split_head " (") [total_skip (f_name f2)] = [f_name f2]) as Hsplit.
    { cbn [map]. unfold total_skip.
      change (f_name f2 +:+ " (total size limit reached)")
        with (f_name f2 +:+ " (" +:+ "total size limit reached)").
      by rewrite split_head_skip. }
    rewrite (read_file_listed pats mf en _ EmptyString _ f2); [|done|].
    2:{ rewrite Hsplit. apply bool_decide_eq_true. apply list_elem_of_In. by left. }
    rewrite (read_file_included pats mf en _ EmptyString _ f1 m1 (6 * 1024 * 1024) text1)
      by done.
    rewrite Hsplit. rewrite bool_decide_eq_false_2; [done|].
    intros [Heq|[]]%list_elem_of_In. by apply Hdiff.
Qed.
End Budget.

Section Examples.
Import Demo.
#[local] Existing Instance lib.

(** C1, as stated, fails.  With a single-file limit of 10 bytes the scan
    admits nothing of a project whose one file has 20 bytes, and the
    fingerprint is not that of the empty set of admitted files: the
    skipped file is hashed.  And where a file at the top comes with one in
    a sub-directory, both admitted, the fingerprint is not the digest of
    their tuples in sorted-path order. *)
Lemma fingerprint_counts_skipped_file :
  (counted (budget_pass one_file [] 10 DEFAULT_MAX_TOTAL_SIZE) = []
   /\ skipped_files (budget_pass one_file [] 10 DEFAULT_MAX_TOTAL_SIZE)
      = ["data.csv (size: 0.0KB)"]
   /\ calculate_project_hash one_file []
      <> SnapshotFingerprint (counted (budget_pass one_file [] 10 DEFAULT_MAX_TOTAL_SIZE)))
  /\ (counted (budget_pass nested [] DEFAULT_MAX_FILE_SIZE DEFAULT_MAX_TOTAL_SIZE)
      = [("b.txt", 1700000000, 2); ("a/z.txt", 1700000000, 2)]
      /\ calculate_project_hash nested []
         <> SnapshotFingerprint
              (counted (budget_pass nested [] DEFAULT_MAX_FILE_SIZE DEFAULT_MAX_TOTAL_SIZE))).
Proof. vm_compute. split_and!; (reflexivity || discriminate). Qed.

(** C2, as stated, fails.  A first run with a single-file limit of 100
    bytes stores its report under the fingerprint; an hour later a run
    with a limit of 10 bytes admits no file, and returns the stored
    report instead of the empty-project exit. *)
Lemma cached_report_for_empty_scan :
  let first := main (run_args 100) cfg env0 None in
  let second := main (run_args 10) cfg env1 (cache_after first) in
  outcome_of first = Report "All good."
  /\ empty_scan (run_args 10)
  /\ outcome_of second = CachedReport "All good."
  /\ trace second = [CacheLookup (calculate_project_hash one_file [])].
Proof. vm_compute. split_and!; reflexivity. Qed.

(** C3: the code at two failing inputs.  With limits of 8 and 10 bytes
    the first pass skips "b (old).txt" for the total, and the second pass
    reads it.  With a single-file limit of 10 bytes the first pass counts
    "notes" and skips "notes (old).txt", and the second pass reads
    nothing. *)
Lemma skip_list_matching_fails :
  (let first := budget_pass two_sixes [] 8 10 in
   counted first = [("a.txt", 1700000000, 6)]
   /\ skipped_files first = ["b (old).txt (total size limit reached)"]
   /\ In (formatted_content "b (old).txt" "bbbbbb")
         (all_files_content (read_pass two_sixes [] 8 true (skipped_files first))))
  /\ (let first := budget_pass shadowed [] 10 DEFAULT_MAX_TOTAL_SIZE in
      counted first = [("notes", 1700000000, 5)]
      /\ skipped_files first = ["notes (old).txt (size: 0.0KB)"]
      /\ all_files_content (read_pass shadowed [] 10 true (skipped_files first)) = []).
Proof. vm_compute. split_and!; try reflexivity. right. by left. Qed.

(** C4: the code at a failing input.  The same two sub-directories,
    listed in the two possible orders, have different fingerprints. *)
Lemma listing_order_changes_fingerprint :
  relist (@rev _) two_dirs = two_dirs_relisted
  /\ calculate_project_hash two_dirs [] <> calculate_project_hash two_dirs_relisted [].
Proof. split; [reflexivity|]. vm_compute. discriminate. Qed.


(** The updates of the hasher are not delimited: a file whose modification
    time goes from 1700000000.5 to 1700000000.51 while its size goes from
    12 to 2 gives the hasher the same bytes. *)
Lemma undelimited_updates_coincide :
  hash_updates (L := lib_repr)
    (Dir [@Build_file lib_repr "a.txt" (Some ("1700000000.5", 12)) None] []) []
  = hash_updates (L := lib_repr)
      (Dir [@Build_file lib_repr "a.txt" (Some ("1700000000.51", 2)) None] []) [].
Proof. reflexivity. Qed.


(** C6, at two files of 6MB and a single-file limit of 8MB. *)
Lemma cumulative_budget_witness :
  let st := budget_pass (Dir [six_mb "a.bin"; six_mb "b.bin"] []) []
                        (8 * 1024 * 1024) (10 * 1024 * 1024) in
  counted st = [("a.bin", 1700000000, 6 * 1024 * 1024)]
  /\ skipped_files st = ["b.bin (total size limit reached)"]
  /\ file_count st = 1%nat
  /\ total_size st = 6 * 1024 * 1024.
Proof.
  apply (proj1 (cumulative_budget [] (8 * 1024 * 1024) (six_mb "a.bin") (six_mb "b.bin")
                  1700000000 1700000000 eq_refl eq_refl eq_refl eq_refl
                  ltac:(vm_compute; discriminate))).
Defined.

(** C2, at a project whose one file is over the single-file limit, with an
    empty cache. *)
Lemma empty_project_outcome_witness :
  empty_scan (run_args 10)
  /\ outcome_of (main (run_args 10) cfg env0 None) = Exit EmptyProject.
Proof.
  assert (empty_scan (run_args 10)) as He by reflexivity.
  split; [exact He|].
  destruct (empty_project_outcome (run_args 10) cfg env0 None He)
    as (_ & _ & _ & Hexit & _).
  apply Hexit. split; [reflexivity | discriminate].
Defined.


(** C10, at a class with a method that holds a function, and a function
    beside it. *)
Lemma complexity_score_counts_nested_witness :
  exists a,
    perform_static_analysis "box.py" source_nested = Returned a
    /\ structure a = Some {| functions := 3; classes := 1; complexity_score := 5 |}.
Proof.
  apply (complexity_score_counts_nested "box.py" source_nested tree_nested); reflexivity.
Defined.
End Examples.

(** ** The paths the walk reaches *)

Section WalkFacts.
Context `{L : PyLib}.


Lemma keep_dir_pruned pats dirs d :
  d ∈ DEFAULT_IGNORE_DIRS \/ (In d dirs /\ exists p, In p pats /\ fnmatch d p = true) ->
  keep_dir pats dirs d = false.
Proof.
  intros H. apply bool_decide_eq_false. intros Hn. apply Hn.
  unfold all_ignored_dirs. apply elem_of_union.
  destruct H as [H|(Hd & p & Hp & Hm)]; [by left|right].
  apply elem_of_list_to_set, list_elem_of_In, in_flat_map.
  exists p. split; [done|]. unfold fnmatch_filter. apply filter_In. by split.
Qed.







End WalkFacts.

(** ** The two passes as folds *)

Section PassFolds.
Context `{L : PyLib}.

Lemma foldl_snoc {A B} (f : A -> B -> A) a l x :
  foldl f a (l ++ [x]) = f (foldl f a l) x.
Proof. revert a. induction l as [|y l IH]; intros a; cbn; [done|]. apply IH. Qed.

Lemma analysis_path path content :
  exists a, perform_static_analysis path content = Returned a /\ file_path a = path.
Proof.
  unfold perform_static_analysis.
  destruct (Py.endswith path ".py").
  - unfold analyze_python.
    destruct (ast_parse content) as [tree|[msg|msg]]; cbn [bind try_except];
      eexists; split; reflexivity.
  - destruct (existsb _ _); eexists; (split; [reflexivity|]); [|done].
    unfold analyze_script.
    by repeat match goal with |- context [if ?b then _ else _] => destruct b end.
Qed.

(** The first pass is a fold of its loop body over the files it gets to. *)
Lemma budget_pass_fold t pats mf mt :
  budget_pass t pats mf mt = foldl (budget_step mf mt) budget_start (scanned t pats).
Proof.
  unfold budget_pass, scanned, considered.
  apply (loop_invariant (budget_file pats mf mt) (fun files => files) pats
           (fun st seen => st = foldl (budget_step mf mt) budget_start seen)).
  - done.
  - intros st seen root f -> E. by apply budget_file_excluded.
  - intros st seen root f -> E. rewrite foldl_snoc.
    by rewrite budget_file_included.
Qed.

Lemma read_file_choice pats mf en skipped root st f :
  excluded pats root f = false ->
  let e := (Py.path_join root (f_name f), f) in
  let st' := read_file pats mf en skipped root st f in
  let new := option_list (read_choice mf skipped e) in
  all_files_content st' = all_files_content st ++ new
  /\ processed_files st' = (processed_files st + length new)%nat
  /\ (if en
      then map file_path (static_analysis_results st')
           = map file_path (static_analysis_results st) ++ map (fun _ => e.1) new
      else static_analysis_results st' = static_analysis_results st).
Proof.
  intros E. cbn zeta. unfold read_file, read_choice. cbn [fst snd]. unfold excluded in E.
  destruct (bool_decide (Py.splitext_ext _ ∈ _)); [done|]. cbn in E. rewrite E.
  destruct (f_stat f) as [[m size]|].
  2:{ cbn. rewrite !app_nil_r. split_and!; [done|lia|by destruct en]. }
  destruct ((mf <? size) || bool_decide _).
  { cbn. rewrite !app_nil_r. split_and!; [done|lia|by destruct en]. }
  destruct (f_text f) as [content|].
  2:{ cbn. rewrite !app_nil_r. split_and!; [done|lia|by destruct en]. }
  cbn [option_list length map].
  destruct en.
  - destruct (analysis_path (Py.path_join root (f_name f)) content) as (a & -> & Hpa).
    cbn. rewrite map_app. cbn. rewrite Hpa. split_and!; [done|lia|done].
  - cbn. split_and!; [done|lia|done].
Qed.

(** The texts the second pass keeps are those of the files it chooses to
    read, in the order it gets to them; each is counted as processed, and
    each is analysed when the analysis is on. *)
Lemma read_pass_fold t pats mf en skipped :
  let second := read_pass t pats mf en skipped in
  all_files_content second = omap (read_choice mf skipped) (scanned t pats)
  /\ processed_files second = length (all_files_content second)
  /\ (if en
      then map file_path (static_analysis_results second)
           = omap (fun e => match read_choice mf skipped e with
                            | Some _ => Some e.1
                            | None => None
                            end) (scanned t pats)
      else static_analysis_results second = []).
Proof.
  cbn zeta. unfold read_pass, scanned, considered.
  apply (loop_invariant (read_file pats mf en skipped) (fun files => files) pats
    (fun st seen =>
      all_files_content st = omap (read_choice mf skipped) seen
      /\ processed_files st = length (all_files_content st)
      /\ (if en
          then map file_path (static_analysis_results st)
               = omap (fun e => match read_choice mf skipped e with
                                | Some _ => Some e.1
                                | None => None
                                end) seen
          else static_analysis_results st = []))).
  - by destruct en.
  - intros st seen root f HP E. by rewrite read_file_excluded.
  - intros st seen root f (Hc & Hp & Hr) E.
    destruct (read_file_choice pats mf en skipped root st f E) as (Hc' & Hp' & Hr').
    rewrite Hc', Hp', Hp, Hc, !omap_app, length_app.
    assert (forall {B} (g : string * file -> option B) e,
              omap g [e] = option_list (g e)) as Hone.
    { intros B g e. unfold omap. cbn [list_omap]. destruct (g e); reflexivity. }
    rewrite !Hone. split_and!; [done|done|].
    destruct en; [|by rewrite Hr', Hr].
    rewrite Hr', Hr. f_equal. by destruct (read_choice mf skipped _).
Qed.

End PassFolds.

Section BudgetFold.
Context `{L : PyLib}.

Lemma budget_step_cases mf mt st e :
  match f_stat e.2 with
  | None => budget_step mf mt st e = st
  | Some (m, size) =>
      (mf < size /\ budget_step mf mt st e =
         {| file_count := file_count st; total_size := total_size st;
            skipped_files := skipped_files st ++ [size_skip e.1 size];
            counted := counted st |})
      \/ (size <= mf /\ mt < total_size st + size /\ budget_step mf mt st e =
         {| file_count := file_count st; total_size := total_size st;
            skipped_files := skipped_files st ++ [total_skip e.1];
            counted := counted st |})
      \/ (size <= mf /\ total_size st + size <= mt /\ budget_step mf mt st e =
         {| file_count := S (file_count st); total_size := total_size st + size;
            skipped_files := skipped_files st;
            counted := counted st ++ [(e.1, m, size)] |})
  end.
Proof.
  unfold budget_step. destruct (f_stat e.2) as [[m size]|]; [|done].
  destruct (Z.ltb_spec mf size); [by left|].
  destruct (Z.ltb_spec mt (total_size st + size)); [right; by left | right; by right].
Qed.

(** What the first pass keeps, whatever the files: every counted file is
    within the single-file limit, the total is within the total limit as
    soon as a file is counted, every file whose size can be read is either
    counted or recorded as skipped, and every file over the single-file
    limit is recorded with its size. *)
Lemma budget_fold_facts mf mt l :
  let st := foldl (budget_step mf mt) budget_start l in
  Forall (fun x : string * mtime * Z => x.2 <= mf) (counted st)
  /\ (counted st = [] \/ total_size st <= mt)
  /\ (file_count st + length (skipped_files st))%nat = length (List.filter has_size l)
  /\ (forall rel f m size, In (rel, f) l -> f_stat f = Some (m, size) -> mf < size ->
        In (size_skip rel size) (skipped_files st)).
Proof.
  cbn zeta. induction l as [|e l IH] using rev_ind.
  - cbn. split_and!; try done. by left.
  - rewrite foldl_snoc. destruct IH as (IH1 & IH2 & IH3 & IH4).
    set (st := foldl (budget_step mf mt) budget_start l) in *.
    rewrite List.filter_app, length_app. cbn [List.filter]. unfold has_size at 2.
    pose proof (budget_step_cases mf mt st e) as Hc.
    assert (forall rel f m size, In (rel, f) (l ++ [e]) -> f_stat f = Some (m, size) ->
              mf < size ->
              In (size_skip rel size) (skipped_files st)
              \/ (e = (rel, f))) as Hold.
    { intros rel f m size [Hin|[<-|[]]]%in_app_or Hst Hlt; [left; by eapply IH4 | by right]. }
    destruct (f_stat e.2) as [[m size]|] eqn:Est.
    + destruct Hc as [[Hlt ->]|[(Hle & Hmt & ->)|(Hle & Hmt & ->)]]; cbn.
      * split_and!; try done.
        -- rewrite length_app. cbn. lia.
        -- intros rel f m' size' Hin Hst Hlt'.
           destruct (Hold _ _ _ _ Hin Hst Hlt') as [H| ->]; apply in_or_app; [by left|].
           right. cbn in Est. rewrite Est in Hst. injection Hst as <- <-. by left.
      * split_and!; try done.
        -- rewrite length_app. cbn. lia.
        -- intros rel f m' size' Hin Hst Hlt'.
           destruct (Hold _ _ _ _ Hin Hst Hlt') as [H| ->]; apply in_or_app; [by left|].
           cbn in Est. rewrite Est in Hst. injection Hst as <- <-. lia.
      * split_and!.
        -- apply Forall_app. split; [done|]. by constructor.
        -- by right.
        -- cbn. lia.
        -- intros rel f m' size' Hin Hst Hlt'.
           destruct (Hold _ _ _ _ Hin Hst Hlt') as [H| ->]; [done|].
           cbn in Est. rewrite Est in Hst. injection Hst as <- <-. lia.
    + rewrite Hc. cbn. split_and!; try done.
      * lia.
      * intros rel f m' size' Hin Hst Hlt'.
        destruct (Hold _ _ _ _ Hin Hst Hlt') as [H| ->]; [done|].
        cbn in Est. congruence.
Qed.

End BudgetFold.

Section Agreement.
Context `{L : PyLib}.

Lemma split_head_size_skip rel size :
  Py.contains " (" rel = false -> Py.split_head " (" (size_skip rel size) = rel.
Proof.
  intros H. unfold size_skip.
  change (rel +:+ " (size: " +:+ Py.format_kb size +:+ "KB)")
    with (rel +:+ " (" +:+ ("size: " +:+ Py.format_kb size +:+ "KB)")).
  by apply split_head_skip.
Qed.

Lemma split_head_total_skip rel :
  Py.contains " (" rel = false -> Py.split_head " (" (total_skip rel) = rel.
Proof.
  intros H. unfold total_skip.
  change (rel +:+ " (total size limit reached)")
    with (rel +:+ " (" +:+ "total size limit reached)").
  by apply split_head_skip.
Qed.

Lemma counted_from mf mt l x :
  In x (counted (foldl (budget_step mf mt) budget_start l)) ->
  exists e, In e l /\ count_entry e = Some x.
Proof.
  induction l as [|e l IH] using rev_ind; [done|].
  rewrite foldl_snoc.
  pose proof (budget_step_cases mf mt (foldl (budget_step mf mt) budget_start l) e) as Hc.
  assert (In x (counted (foldl (budget_step mf mt) budget_start l)) ->
          exists e0, In e0 (l ++ [e]) /\ count_entry e0 = Some x) as Hold.
  { intros (e0 & ? & ?)%IH. exists e0. split; [apply in_or_app; by left | done]. }
  destruct (f_stat e.2) as [[m size]|] eqn:Est.
  - destruct Hc as [[_ ->]|[(_ & _ & ->)|(_ & _ & ->)]]; cbn [counted]; try done.
    intros [Hin|[<-|[]]]%in_app_or; [by apply Hold|].
    exists e. split; [apply in_or_app; right; by left|].
    unfold count_entry. by rewrite Est.
  - by rewrite Hc.
Qed.

(** Where no path holds " (" and no two files share a path, the paths the
    skip list gives back are those of the files that were not counted. *)
Lemma skip_list_fold mf mt l :
  NoDup (map fst l) ->
  Forall (fun e : string * file => Py.contains " (" e.1 = false) l ->
  let st := foldl (budget_step mf mt) budget_start l in
  (forall rel, In rel (map (Py.split_head " (") (skipped_files st)) -> In rel (map fst l))
  /\ (forall e m size, In e l -> f_stat e.2 = Some (m, size) -> size <= mf ->
        (In (e.1, m, size) (counted st)
         <-> ~ In e.1 (map (Py.split_head " (") (skipped_files st)))).
Proof.
  cbn zeta. induction l as [|e l IH] using rev_ind; intros Hnd Hpar.
  - by split.
  - rewrite map_app in Hnd. apply NoDup_app in Hnd as (Hnd & Hfresh & _).
    apply Forall_app in Hpar as [Hpar He]. apply Forall_cons in He as [He _].
    destruct (IH Hnd Hpar) as [IH1 IH2]. clear IH.
    rewrite foldl_snoc.
    set (st := foldl (budget_step mf mt) budget_start l) in *.
    assert (~ In e.1 (map fst l)) as Hnew.
    { intros Hin%list_elem_of_In. apply (Hfresh _ Hin). cbn. left. }
    assert (forall m size, ~ In (e.1, m, size) (counted st)) as Hnc.
    { intros m size (e0 & Hin & Hce)%counted_from. apply Hnew.
      unfold count_entry in Hce. destruct (f_stat e0.2) as [[??]|]; [|done].
      injection Hce as <- _ _. apply in_map_iff. by exists e0. }
    assert (forall e0, In e0 l -> e0.1 <> e.1) as Hdiff.
    { intros e0 Hin Heq. apply Hnew. rewrite <- Heq. apply in_map_iff. by exists e0. }
    pose proof (budget_step_cases mf mt st e) as Hc.
    destruct (f_stat e.2) as [[m size]|] eqn:Est.
    + destruct Hc as [[Hlt ->]|[(Hle & Hmt & ->)|(Hle & Hmt & ->)]];
        cbn [skipped_files counted].
      * rewrite map_app. cbn [map]. rewrite split_head_size_skip by done. split.
        -- intros rel [Hin|[<-|[]]]%in_app_or; rewrite map_app; apply in_or_app;
             [left; by apply IH1 | right; by left].
        -- intros e0 m0 size0 [Hin|[<-|[]]]%in_app_or Hst Hsz.
           ++ rewrite (IH2 e0 m0 size0 Hin Hst Hsz). split.
              ** intros Hn [H|[H|[]]]%in_app_or; [done|]. by apply (Hdiff e0).
              ** intros Hn H. apply Hn, in_or_app. by left.
           ++ rewrite Est in Hst. injection Hst as <- <-. lia.
      * rewrite map_app. cbn [map]. rewrite split_head_total_skip by done. split.
        -- intros rel [Hin|[<-|[]]]%in_app_or; rewrite map_app; apply in_or_app;
             [left; by apply IH1 | right; by left].
        -- intros e0 m0 size0 [Hin|[<-|[]]]%in_app_or Hst Hsz.
           ++ rewrite (IH2 e0 m0 size0 Hin Hst Hsz). split.
              ** intros Hn [H|[H|[]]]%in_app_or; [done|]. by apply (Hdiff e0).
              ** intros Hn H. apply Hn, in_or_app. by left.
           ++ split; [intros H; by apply Hnc in H|].
              intros Hn. destruct Hn. apply in_or_app. right. by left.
      * split.
        -- intros rel Hin. rewrite map_app. apply in_or_app. left. by apply IH1.
        -- intros e0 m0 size0 [Hin|[<-|[]]]%in_app_or Hst Hsz.
           ++ rewrite <- (IH2 e0 m0 size0 Hin Hst Hsz). split.
              ** intros [H|[H|[]]]%in_app_or; [done|].
                 injection H as H _ _. by destruct (Hdiff e0 Hin).
              ** intros H. apply in_or_app. by left.
           ++ rewrite Est in Hst. injection Hst as <- <-. split.
              ** intros _ Hin. by apply Hnew, IH1.
              ** intros _. apply in_or_app. right. by left.
    + rewrite Hc. split.
      * intros rel Hin. rewrite map_app. apply in_or_app. left. by apply IH1.
      * intros e0 m0 size0 [Hin|[<-|[]]]%in_app_or Hst Hsz; [by apply IH2|congruence].
Qed.

End Agreement.

(** ** The scan and its limits *)

Section ScanTheorems.
Context `{L : PyLib}.

Lemma read_choice_some mf skipped e x :
  read_choice mf skipped e = Some x ->
  exists m size content,
    f_stat e.2 = Some (m, size) /\ size <= mf
    /\ ~ In e.1 (map (Py.split_head " (") skipped)
    /\ f_text e.2 = Some content /\ x = formatted_content e.1 content.
Proof.
  unfold read_choice. destruct (f_stat e.2) as [[m size]|]; [|done].
  destruct (Z.ltb_spec mf size); cbn [orb]; [done|].
  destruct (bool_decide_reflect (e.1 ∈ map (Py.split_head " (") skipped)) as [|Hn]; [done|].
  destruct (f_text e.2) as [content|]; [|done]. intros [= <-].
  exists m, size, content. split_and!; try done. intros Hin. by apply Hn, list_elem_of_In.
Qed.

Lemma read_choice_intro mf skipped e m size content :
  f_stat e.2 = Some (m, size) -> size <= mf ->
  ~ In e.1 (map (Py.split_head " (") skipped) ->
  f_text e.2 = Some content ->
  read_choice mf skipped e = Some (formatted_content e.1 content).
Proof.
  intros Hst Hsz Hn Htxt. unfold read_choice. rewrite Hst.
  destruct (Z.ltb_spec mf size); [lia|]. cbn [orb].
  rewrite bool_decide_eq_false_2; [by rewrite Htxt|].
  intros Hin. by apply Hn, list_elem_of_In.
Qed.

Lemma nodup_fst_inj {A B} (l : list (A * B)) x y1 y2 :
  NoDup (map fst l) -> In (x, y1) l -> In (x, y2) l -> y1 = y2.
Proof.
  induction l as [|[a b] l IH]; [done|]. cbn [map fst].
  intros [Hn Hnd]%NoDup_cons [H1|H1] [H2|H2].
  - congruence.
  - injection H1 as -> ->. destruct Hn. apply list_elem_of_In, in_map_iff. by exists (x, y2).
  - injection H2 as -> ->. destruct Hn. apply list_elem_of_In, in_map_iff. by exists (x, y1).
  - by apply IH.
Qed.


(** X2. The first pass counts nothing or keeps its running total within
    max_total_size; so the total size in the statistics that
    read_project_files returns never exceeds max_total_size. *)
Theorem budget_within_limits t pats mf mt :
  let first := budget_pass t pats mf mt in
  (counted first = [] \/ total_size first <= mt)
  /\ (forall custom en content results st,
        read_project_files t custom mf mt en = inr (content, results, st) ->
        total_bytes st <= mt).
Proof.
  cbn zeta. split.
  - rewrite budget_pass_fold. by destruct (budget_fold_facts mf mt (scanned t pats))
      as (_ & H & _).
  - intros custom en content results st. unfold read_project_files.
    destruct (budget_pass_totals t (default [] custom) mf mt) as [Hc' _].
    destruct (Nat.eqb_spec (file_count (budget_pass t (default [] custom) mf mt)) 0)
      as [|Hne]; [done|].
    intros [= _ _ <-]. cbn [total_bytes].
    rewrite budget_pass_fold in *.
    destruct (budget_fold_facts mf mt (scanned t (default [] custom))) as (_ & [H|H] & _);
      [|done].
    rewrite H in Hc'. cbn in Hc'. done.
Qed.

(** X3. The single-file limit.  A file the scan gets to whose size is
    above max_file_size is recorded as skipped, with its size in KB; every
    counted file has at most max_file_size bytes; and every text the
    second pass keeps is that of a file of at most max_file_size bytes. *)
Theorem single_file_limit t pats mf mt en :
  let first := budget_pass t pats mf mt in
  let second := read_pass t pats mf en (skipped_files first) in
  (forall rel f m size, In (rel, f) (scanned t pats) -> f_stat f = Some (m, size) ->
     mf < size ->
     In (rel +:+ " (size: " +:+ Py.format_kb size +:+ "KB)") (skipped_files first))
  /\ Forall (fun x : string * mtime * Z => x.2 <= mf) (counted first)
  /\ (forall x, In x (all_files_content second) ->
        exists rel f m size content,
          In (rel, f) (scanned t pats) /\ f_stat f = Some (m, size) /\ size <= mf
          /\ x = formatted_content rel content).
Proof.
  cbn zeta. rewrite budget_pass_fold.
  destruct (budget_fold_facts mf mt (scanned t pats)) as (H1 & _ & _ & H4).
  split_and!; [|done|].
  - intros rel f m size Hin Hst Hlt. by eapply H4.
  - intros x (rel & f & m & size & content & Hin & Hst & _ & -> & Hsz & _)%read_pass_sound.
    by exists rel, f, m, size, content.
Qed.

(** X4. The first pass accounts for every file whose size can be read:
    file_count plus the number of entries of skipped_files is the number
    of files the scan gets to whose size can be read. *)
Theorem counted_or_skipped t pats mf mt :
  let first := budget_pass t pats mf mt in
  (file_count first + length (skipped_files first))%nat
  = length (List.filter has_size (scanned t pats)).
Proof.
  cbn zeta. rewrite budget_pass_fold.
  by destruct (budget_fold_facts mf mt (scanned t pats)) as (_ & _ & H & _).
Qed.

Lemma nodup_omap_fst {B C} (h : string * B -> option C) (key : C -> string) l :
  (forall e x, h e = Some x -> key x = e.1) ->
  NoDup (map fst l) -> NoDup (omap h l).
Proof.
  intros Hkey. induction l as [|e l IH]; [constructor|]. cbn [map].
  intros [Hn Hnd]%NoDup_cons. change (omap h (e :: l)) with
    (match h e with Some x => x :: omap h l | None => omap h l end).
  destruct (h e) as [x|] eqn:E; [|by apply IH].
  apply NoDup_cons. split; [|by apply IH].
  intros (e' & He' & Hx)%list_elem_of_omap. apply Hn.
  apply Hkey in E, Hx. rewrite <- E, Hx. apply list_elem_of_In, in_map.
  by apply list_elem_of_In.
Qed.

Lemma omap_length_same {A B C} (f : A -> option B) (g : A -> option C) l :
  (forall e, In e l -> is_Some (f e) <-> is_Some (g e)) ->
  length (omap f l) = length (omap g l).
Proof.
  induction l as [|e l IH]; [done|]. intros H.
  change (omap f (e :: l)) with (match f e with Some x => x :: omap f l | None => omap f l end).
  change (omap g (e :: l)) with (match g e with Some x => x :: omap g l | None => omap g l end).
  pose proof (H e (or_introl eq_refl)) as He.
  assert (length (omap f l) = length (omap g l)) as Hl.
  { apply IH. intros e' He'. apply H. by right. }
  destruct (f e), (g e); cbn [length]; try by rewrite Hl.
  - destruct He as [He _]. by destruct He.
  - destruct He as [_ He]. by destruct He.
Qed.

(** X5. When the files the scan gets to have distinct relative paths and
    no path holds " (", the second pass keeps exactly the texts of the
    counted files that can be read, and the number of processed files is
    at most file_count. *)
Theorem passes_agree t pats mf mt en :
  NoDup (map fst (scanned t pats)) ->
  Forall (fun e : string * file => Py.contains " (" e.1 = false) (scanned t pats) ->
  let first := budget_pass t pats mf mt in
  let second := read_pass t pats mf en (skipped_files first) in
  (forall x,
     In x (all_files_content second) <->
     exists rel m size f content,
       In (rel, m, size) (counted first) /\ In (rel, f) (scanned t pats)
       /\ f_text f = Some content /\ x = formatted_content rel content)
  /\ (processed_files second <= file_count first)%nat.
Proof.
  intros Hnd Hpar. cbn zeta.
  destruct (read_pass_fold t pats mf en (skipped_files (budget_pass t pats mf mt)))
    as (Hc & Hp & _). cbn zeta in Hc, Hp. rewrite Hp, Hc.
  destruct (budget_pass_totals t pats mf mt) as [Hfc _]. cbn zeta in Hfc. rewrite Hfc.
  rewrite budget_pass_fold.
  destruct (skip_list_fold mf mt (scanned t pats) Hnd Hpar) as [_ Hiff].
  destruct (budget_fold_facts mf mt (scanned t pats)) as (Hsz & _).
  set (first := foldl (budget_step mf mt) budget_start (scanned t pats)) in *.
  split; [intros x; split|].
  - intros ([rel f] & He & Hx)%list_elem_of_In%list_elem_of_omap.
    apply list_elem_of_In in He.
    apply read_choice_some in Hx as (m & size & content & Hst & Hle & Hn & Htxt & ->).
    exists rel, m, size, f, content. split_and!; try done.
    by apply (Hiff (rel, f) m size).
  - intros (rel & m & size & f & content & Hcnt & Hin & Htxt & ->).
    apply list_elem_of_In, list_elem_of_omap. exists (rel, f).
    split; [by apply list_elem_of_In|].
    destruct (counted_from mf mt _ _ Hcnt) as ([rel' f'] & Hin' & Hce).
    unfold count_entry in Hce. cbn [fst snd] in Hce.
    destruct (f_stat f') as [[m' size']|] eqn:Est'; [|done]. injection Hce as -> -> ->.
    assert (f' = f) as ->.
    { by apply (nodup_fst_inj (scanned t pats) rel). }
    pose proof (proj1 (Forall_forall _ _) Hsz _ (proj2 (list_elem_of_In _ _) Hcnt)) as Hle.
    cbn in Hle.
    apply (read_choice_intro mf _ (rel, f) m size content); try done.
    by apply (Hiff (rel, f) m size).
  - set (h := fun e : string * file =>
                match read_choice mf (skipped_files first) e with
                | Some _ => count_entry e
                | None => None
                end).
    rewrite (omap_length_same _ h).
    + apply NoDup_incl_length.
      * apply NoDup_ListNoDup, (nodup_omap_fst h (fun x => x.1.1)); [|done].
        intros e x. unfold h, count_entry.
        destruct (read_choice _ _ e); [|done].
        destruct (f_stat e.2) as [[m size]|]; [|done]. by intros [= <-].
      * intros x ([rel f] & He & Hx)%list_elem_of_In%list_elem_of_omap.
        apply list_elem_of_In in He. unfold h in Hx.
        destruct (read_choice _ _ (rel, f)) as [y|] eqn:Er; [|done].
        apply read_choice_some in Er as (m & size & content & Hst & Hle & Hn & _).
        unfold count_entry in Hx. rewrite Hst in Hx. injection Hx as <-.
        by apply (Hiff (rel, f) m size).
    + intros e _. unfold h. destruct (read_choice _ _ e) as [y|] eqn:Er.
      * apply read_choice_some in Er as (m & size & content & Hst & _).
        unfold count_entry. rewrite Hst. split; by eexists.
      * split; intros [? ?]; done.
Qed.

End ScanTheorems.

Section Untouched.
Context `{L : PyLib}.

Lemma read_pass_steps t pats mf en skipped :
  read_pass t pats mf en skipped
  = foldl (read_step mf en skipped) reading_start (scanned t pats).
Proof.
  unfold read_pass, scanned, considered.
  apply (loop_invariant (read_file pats mf en skipped) (fun files => files) pats
           (fun st seen => st = foldl (read_step mf en skipped) reading_start seen)).
  - done.
  - intros st seen root f -> E. by apply read_file_excluded.
  - intros st seen root f -> E. rewrite foldl_snoc.
    unfold read_file, read_step. cbn [fst snd]. unfold excluded in E.
    destruct (bool_decide (Py.splitext_ext _ ∈ _)); [done|]. cbn in E. by rewrite E.
Qed.

Lemma scanned_untouched g t pats :
  keeps_names g ->
  (forall rel f, In (rel, f) (scanned t pats) -> g rel f = f) ->
  scanned (map_files g EmptyString t) pats = scanned t pats
  /\ hashed (map_files g EmptyString t) pats = hashed t pats.
Proof.
  intros Hg Hid.
  assert (forall l : list (string * file),
            (forall rel f, In (rel, f) l -> g rel f = f) ->
            map (fun e => (e.1, g e.1 e.2)) l = l) as Hmap.
  { intros l Hl. induction l as [|[rel f] l IH]; [done|]. cbn [map fst snd].
    rewrite Hl by (by left). f_equal. apply IH. intros ???. apply Hl. by right. }
  split.
  - rewrite scanned_map_files by done. by apply Hmap.
  - rewrite hashed_map_files by done. apply Hmap. intros rel f Hin. apply Hid.
    by apply (Permutation_in _ (hashed_scanned t pats)).
Qed.

(** X6. A change to files that the scan does not get to (ignored files,
    files of pruned directories) which keeps their names changes neither
    the fingerprint, nor what read_project_files returns, nor the run of
    main. *)
Theorem run_untouched_by_ignored_files g (a : args) c e fs :
  keeps_names g ->
  (forall rel f, In (rel, f) (scanned (path a) (default [] (ignore a))) -> g rel f = f) ->
  let t' := map_files g EmptyString (path a) in
  calculate_project_hash t' (default [] (ignore a))
  = calculate_project_hash (path a) (default [] (ignore a))
  /\ read_project_files t' (ignore a) (max_file_size a) (max_total_size a)
                        (negb (no_static_analysis a))
     = read_project_files (path a) (ignore a) (max_file_size a) (max_total_size a)
                          (negb (no_static_analysis a))
  /\ main (with_path a t') c e fs = main a c e fs.
Proof.
  intros Hg Hid. cbn zeta.
  destruct (scanned_untouched g (path a) _ Hg Hid) as [Hs Hh].
  assert (calculate_project_hash (map_files g EmptyString (path a)) (default [] (ignore a))
          = calculate_project_hash (path a) (default [] (ignore a))) as Hhash.
  { unfold calculate_project_hash. by rewrite !hash_updates_eq, Hh. }
  assert (forall mf mt en,
    read_project_files (map_files g EmptyString (path a)) (ignore a) mf mt en
    = read_project_files (path a) (ignore a) mf mt en) as Hread.
  { intros mf mt en. unfold read_project_files.
    by rewrite !budget_pass_fold, !read_pass_steps, !Hs. }
  split; [done|]. split; [apply Hread|].
  unfold main, with_path. cbn [path type_ provider ignore max_file_size max_total_size
                               no_cache no_static_analysis].
  by rewrite Hhash, Hread.
Qed.

Lemma total_bytes_snoc l e : total_bytes_of (l ++ [e]) = total_bytes_of l + size_of e.
Proof.
  induction l as [|x l IH]; cbn [app].
  - unfold total_bytes_of. cbn. lia.
  - change (total_bytes_of (x :: l ++ [e])) with (size_of x + total_bytes_of (l ++ [e])).
    change (total_bytes_of (x :: l)) with (size_of x + total_bytes_of l). lia.
Qed.

Lemma fits_fold mf mt l :
  Forall (fun e => 0 <= size_of e <= mf) l ->
  total_bytes_of l <= mt ->
  let st := foldl (budget_step mf mt) budget_start l in
  skipped_files st = [] /\ counted st = omap count_entry l
  /\ total_size st = total_bytes_of l.
Proof.
  cbn zeta. induction l as [|e l IH] using rev_ind; intros Hsz Hsum; [done|].
  apply Forall_app in Hsz as [Hsz He]. apply Forall_cons in He as [He _].
  rewrite total_bytes_snoc in Hsum.
  destruct IH as (IH1 & IH2 & IH3); [done|lia|].
  rewrite foldl_snoc, omap_app, total_bytes_snoc.
  set (st := foldl (budget_step mf mt) budget_start l) in *.
  pose proof (budget_step_cases mf mt st e) as Hc.
  unfold omap at 2. cbn [list_omap]. unfold count_entry at 2. unfold size_of in *.
  destruct (f_stat e.2) as [[m size]|].
  - destruct Hc as [[Hlt _]|[(Hle & Hmt & _)|(Hle & Hmt & ->)]]; [lia|lia|].
    cbn. by rewrite IH1, IH2, IH3.
  - rewrite Hc. cbn. rewrite app_nil_r, IH3. split_and!; [done|done|lia].
Qed.

(** X7. When every file fits the single-file limit and all of them
    together fit the total limit, nothing is skipped: every file whose size
    can be read is counted, the total is the sum of all the sizes, and the
    second pass keeps the text of every file whose size and text can be
    read. *)
Theorem nothing_skipped_when_it_fits t pats mf mt en :
  Forall (fun e => 0 <= size_of e <= mf) (scanned t pats) ->
  total_bytes_of (scanned t pats) <= mt ->
  let first := budget_pass t pats mf mt in
  let second := read_pass t pats mf en (skipped_files first) in
  skipped_files first = []
  /\ counted first = omap count_entry (scanned t pats)
  /\ total_size first = total_bytes_of (scanned t pats)
  /\ all_files_content second = omap readable_text (scanned t pats).
Proof.
  intros Hsz Hsum. cbn zeta.
  destruct (read_pass_fold t pats mf en (skipped_files (budget_pass t pats mf mt)))
    as (Hc & _). cbn zeta in Hc. rewrite Hc. clear Hc.
  rewrite budget_pass_fold.
  destruct (fits_fold mf mt (scanned t pats) Hsz Hsum) as (H1 & H2 & H3).
  split_and!; try done. rewrite H1.
  apply list_omap_ext. clear -Hsz. induction Hsz as [|e l He _ IH]; constructor; [|done].
  unfold read_choice, readable_text, size_of in *. cbn [map].
  destruct (f_stat e.2) as [[m size]|]; [|done].
  destruct (Z.ltb_spec mf size); [lia|]. cbn [orb].
  by rewrite bool_decide_eq_false_2 by (intros []%elem_of_nil).
Qed.

(** X8. The second pass counts one processed file for each text it
    keeps.  With static analysis on it returns one analysis for each text,
    in the same order, and each is the analysis of that text under that
    relative path; with static analysis off it returns none. *)
Theorem analyses_follow_texts t pats mf en skipped :
  let second := read_pass t pats mf en skipped in
  processed_files second = length (all_files_content second)
  /\ (if en
      then Forall2 (fun a x => exists content,
                      x = formatted_content (file_path a) content
                      /\ perform_static_analysis (file_path a) content = Returned a)
                   (static_analysis_results second) (all_files_content second)
      else static_analysis_results second = []).
Proof.
  cbn zeta. rewrite read_pass_steps.
  induction (scanned t pats) as [|e l IH] using rev_ind.
  - cbn. split; [done|]. destruct en; [constructor | done].
  - rewrite foldl_snoc. destruct IH as [IHp IHr].
    set (st := foldl (read_step mf en skipped) reading_start l) in *.
    unfold read_step. destruct (f_stat e.2) as [[m size]|]; [|done].
    destruct (_ || _); [done|].
    destruct (f_text e.2) as [content|]; [|done]. cbn zeta.
    destruct en.
    + destruct (analysis_path e.1 content) as (a & Ha & Hpa). rewrite Ha.
      cbn. rewrite length_app. cbn. split; [lia|].
      apply Forall2_app; [done|]. constructor; [|constructor].
      exists content. by rewrite Hpa.
    + cbn. rewrite length_app. cbn. split; [lia|done].
Qed.

End Untouched.

(** ** More on the fingerprint and the cache *)

Section HashOrder.
Context `{L : PyLib}.

(** X9. For a tree in which no directory lists two files of one name,
    the fingerprint does not depend on the order in which every directory
    lists its files. *)
Theorem fingerprint_ignores_file_order perm t pats :
  (forall l, Permutation (perm l) l) ->
  distinct_names t ->
  calculate_project_hash (reorder_files perm t) pats = calculate_project_hash t pats.
Proof.
  intros Hperm Hd. unfold calculate_project_hash.
  by rewrite hash_updates_reorder_files.
Qed.

End HashOrder.


(** X11. The edges of a look-up.  Without CACHE_DIR it returns None and
    creates nothing.  Without a file for the key, or with a file that
    cannot be read, it returns None and leaves the cache as it is: a broken
    file is not removed.  A second look-up at the same time gives what the
    first gave.  A key that gives None gives None at every later time.  A
    look-up creates no entry. *)
Theorem cache_lookup_edge_cases (cache_key : string) (max_age_hours now : Z) (fs : cache_dir) :
  let got := get_cached_result cache_key max_age_hours now fs in
  (fs = None -> got = (None, None))
  /\ (cache_lookup fs cache_key = None \/ cache_lookup fs cache_key = Some Unreadable ->
        got = (None, fs))
  /\ get_cached_result cache_key max_age_hours now got.2 = got
  /\ (got.1 = None -> forall later, now <= later ->
        (get_cached_result cache_key max_age_hours later fs).1 = None)
  /\ (forall k, cache_lookup fs k = None -> cache_lookup got.2 k = None).
Proof.
  cbn zeta. unfold get_cached_result, cache_lookup. split_and!.
  - by intros ->.
  - destruct fs as [entries|]; [|done].
    intros [E|E]; by rewrite E.
  - destruct fs as [entries|]; [|done].
    destruct (entries !! cache_key) as [[created result|]|] eqn:E; cbn; rewrite ?E; try done.
    destruct (Z.ltb_spec (timedelta_hours max_age_hours) (now - created)) as [Hlt|Hle]; cbn.
    + by rewrite lookup_delete_eq.
    + rewrite E. by destruct (Z.ltb_spec (timedelta_hours max_age_hours) (now - created));
        [lia|].
  - destruct fs as [entries|]; [|done].
    destruct (entries !! cache_key) as [[created result|]|] eqn:E; cbn; try done.
    destruct (Z.ltb_spec (timedelta_hours max_age_hours) (now - created)) as [Hlt|Hle];
      cbn; [|done].
    intros _ later Hl.
    by destruct (Z.ltb_spec (timedelta_hours max_age_hours) (later - created)); [|lia].
  - intros k. destruct fs as [entries|]; [|done].
    destruct (entries !! cache_key) as [[created result|]|] eqn:E; cbn; try done.
    destruct (_ <? _); cbn; [|done].
    intros Hk. destruct (decide (k = cache_key)) as [->|Hne].
    + by rewrite lookup_delete_eq.
    + by rewrite lookup_delete_ne.
Qed.

(** ** More on main *)

Lemma get_other_keys (cache_key : string) (h now : Z) (fs : cache_dir) k :
  k <> cache_key ->
  cache_lookup (get_cached_result cache_key h now fs).2 k = cache_lookup fs k.
Proof.
  intros Hk. unfold get_cached_result, cache_lookup.
  destruct fs as [entries|]; [|done].
  destruct (entries !! cache_key) as [[created result|]|]; try done.
  destruct (_ <? _); [|done]. cbn. by apply lookup_delete_ne.
Qed.

Lemma save_other_keys (cache_key text : string) (now : Z) (fs : cache_dir) k :
  k <> cache_key ->
  cache_lookup (save_cached_result cache_key text now fs) k = cache_lookup fs k.
Proof.
  intros Hk. unfold save_cached_result, cache_lookup.
  rewrite lookup_insert_ne by done. by destruct fs.
Qed.

Section MainTheorems.
Context `{L : PyLib}.

Lemma main_unfold a c e fs :
  main a c e fs =
  let got := get_cached_result (run_key a) (cache_duration_hours c) (now e) fs in
  let fs1 := if uses_cache a c then got.2 else fs in
  let tr1 := if uses_cache a c then [CacheLookup (run_key a)] else [] in
  if cache_hit a c e fs then
    {| outcome_of := CachedReport (default EmptyString got.1);
       cache_after := fs1; trace := tr1 |}
  else
    match get_api_key e with
    | None => {| outcome_of := Exit MissingApiKey; cache_after := fs1; trace := tr1 |}
    | Some key =>
        match read_project_files (path a) (ignore a) (max_file_size a)
                (max_total_size a) (negb (no_static_analysis a)) with
        | inl _ =>
            {| outcome_of := Exit EmptyProject; cache_after := fs1;
               trace := tr1 ++ [BudgetPass] |}
        | inr (project_content, results, _) =>
            let diagnosis :=
              get_diagnosis key (provider a) (type_ a) project_content
                (if no_static_analysis a then EmptyString
                 else format_static_analysis_summary results) in
            {| outcome_of := Report diagnosis;
               cache_after := if uses_cache a c
                              then save_cached_result (run_key a) diagnosis
                                     (now_at_save e) fs1
                              else fs1;
               trace := (tr1 ++ [BudgetPass; ReadPass]
                         ++ map (fun r => StaticAnalysis (file_path r)) results
                         ++ [Diagnosis])
                        ++ (if uses_cache a c then [CacheSave (run_key a)] else []) |}
        end
    end.
Proof.
  unfold main, cache_hit, run_key. fold (uses_cache a c).
  destruct (uses_cache a c); cbn [andb truthy].
  - destruct (get_cached_result _ _ _ fs) as [r fs']. cbn [fst snd].
    destruct (truthy r); [done|]. destruct (get_api_key e); [|done].
    destruct (read_project_files _ _ _ _ _) as [[]|[[pc res] st]]; done.
  - destruct (get_api_key e); [|done].
    destruct (read_project_files _ _ _ _ _) as [[]|[[pc res] st]]; [done|].
    cbn. by rewrite app_nil_r.
Qed.

Lemma get_api_key_none e :
  get_api_key e = None <-> api_key e = None \/ api_key e = Some EmptyString.
Proof.
  unfold get_api_key. destruct (api_key e) as [key|]; [|by split; [left|]].
  destruct (String.eqb_spec key EmptyString) as [->|Hne].
  - by split; [right|].
  - split; [done|]. intros [|[= ->]]; done.
Qed.

(** X12. The order of the tests of main.  A non-empty cached report is
    returned after the look-up alone, whether an API key is set or not.
    Otherwise a missing or empty API key ends the run before the scan.
    Otherwise an empty scan ends the run before anything is read or sent,
    and a scan that counts a file gives the answer of the provider to the
    query built from the scan. *)
Theorem run_outcomes a c e fs :
  let r := main a c e fs in
  let got := get_cached_result (run_key a) (cache_duration_hours c) (now e) fs in
  (cache_hit a c e fs = true ->
     exists text, got.1 = Some text /\ text <> EmptyString
       /\ outcome_of r = CachedReport text /\ trace r = [CacheLookup (run_key a)]
       /\ cache_after r = got.2)
  /\ (cache_hit a c e fs = false ->
        api_key e = None \/ api_key e = Some EmptyString ->
        outcome_of r = Exit MissingApiKey /\ ~ In BudgetPass (trace r)
        /\ cache_after r = (if uses_cache a c then got.2 else fs))
  /\ (cache_hit a c e fs = false ->
        forall key, api_key e = Some key -> key <> EmptyString ->
        (empty_scan a ->
           outcome_of r = Exit EmptyProject /\ ~ In ReadPass (trace r)
           /\ ~ In Diagnosis (trace r))
        /\ (~ empty_scan a ->
            exists project_content results st,
              read_project_files (path a) (ignore a) (max_file_size a) (max_total_size a)
                                 (negb (no_static_analysis a))
              = inr (project_content, results, st)
              /\ outcome_of r
                 = Report (get_diagnosis key (provider a) (type_ a) project_content
                             (if no_static_analysis a then EmptyString
                              else format_static_analysis_summary results)))).
Proof.
  cbn zeta. rewrite main_unfold. cbn zeta. split_and!.
  - intros Hhit. rewrite Hhit. unfold cache_hit in Hhit.
    apply andb_true_iff in Hhit as [Hu Ht]. rewrite Hu.
    destruct (get_cached_result _ _ _ fs).1 as [text|]; [|done].
    exists text. cbn in Ht. apply negb_true_iff, String.eqb_neq in Ht. by split_and!.
  - intros Hhit Hk%get_api_key_none. rewrite Hhit, Hk. cbn. split_and!; try done.
    destruct (uses_cache a c); cbn; intuition discriminate.
  - intros Hhit key Hk Hne.
    assert (get_api_key e = Some key) as Hkey.
    { unfold get_api_key. rewrite Hk. by apply String.eqb_neq in Hne as ->. }
    rewrite Hhit, Hkey. split.
    + intros He. rewrite read_project_files_empty by done. cbn. split; [done|].
      destruct (uses_cache a c); cbn; intuition discriminate.
    + intros He.
      destruct (read_project_files _ _ _ _ _) as [[]|[[pc res] st]] eqn:Er.
      * destruct He. unfold empty_scan. unfold read_project_files in Er.
        by destruct (Nat.eqb_spec (file_count
             (budget_pass (path a) (default [] (ignore a)) (max_file_size a)
                          (max_total_size a))) 0).
      * by exists pc, res, st.
Qed.

(** X13. main changes no cache entry but the one under the fingerprint
    of its tree.  With the cache off (--no-cache, or cache_enabled false)
    it leaves the cache as it is and neither looks up nor saves.  It saves
    only a report it has just obtained, under that fingerprint and with the
    time of the save. *)
Theorem run_touches_one_cache_entry a c e fs :
  let r := main a c e fs in
  (forall k, k <> run_key a -> cache_lookup (cache_after r) k = cache_lookup fs k)
  /\ (uses_cache a c = false ->
        cache_after r = fs /\ forallb (fun ev => negb (is_cache_event ev)) (trace r) = true)
  /\ (forall k, In (CacheSave k) (trace r) ->
        k = run_key a
        /\ exists text, outcome_of r = Report text
             /\ cache_lookup (cache_after r) k = Some (CacheData (now_at_save e) text)).
Proof.
  cbn zeta. rewrite main_unfold. cbn zeta. split_and!.
  - intros k Hk.
    assert (cache_lookup (if uses_cache a c
                          then (get_cached_result (run_key a) (cache_duration_hours c)
                                                  (now e) fs).2
                          else fs) k = cache_lookup fs k) as H1.
    { destruct (uses_cache a c); [by apply get_other_keys | done]. }
    destruct (cache_hit a c e fs); [done|]. destruct (get_api_key e); [|done].
    destruct (read_project_files _ _ _ _ _) as [[]|[[pc res] st]]; [done|].
    cbn [cache_after]. destruct (uses_cache a c); [|done].
    by rewrite save_other_keys.
  - intros Hu. unfold cache_hit. rewrite Hu. cbn [andb].
    destruct (get_api_key e); [|done].
    destruct (read_project_files _ _ _ _ _) as [[]|[[pc res] st]]; [done|].
    cbn. split; [done|]. rewrite app_nil_r, forallb_app. cbn.
    rewrite andb_true_r. by induction res.
  - intros k.
    destruct (cache_hit a c e fs).
    { destruct (uses_cache a c); cbn; intuition discriminate. }
    destruct (get_api_key e).
    2:{ destruct (uses_cache a c); cbn; intuition discriminate. }
    destruct (read_project_files _ _ _ _ _) as [[]|[[pc res] st]].
    { destruct (uses_cache a c); cbn; intuition discriminate. }
    cbn [trace outcome_of cache_after].
    destruct (uses_cache a c).
    + rewrite !in_app_iff. cbn. rewrite in_map_iff. intros H.
      repeat match goal with
             | H : _ \/ _ |- _ => destruct H
             | H : ex _ |- _ => destruct H
             | H : _ /\ _ |- _ => destruct H
             | H : False |- _ => destruct H
             end; try discriminate.
      match goal with H : CacheSave _ = CacheSave _ |- _ => injection H as <- end.
      split; [done|]. eexists. split; [done|].
      unfold save_cached_result, cache_lookup. by rewrite lookup_insert_eq.
    + rewrite !in_app_iff. cbn. rewrite in_map_iff. intros H.
      repeat match goal with
             | H : _ \/ _ |- _ => destruct H
             | H : ex _ |- _ => destruct H
             | H : _ /\ _ |- _ => destruct H
             | H : False |- _ => destruct H
             end; discriminate.
Qed.


End MainTheorems.

(** ** The shape of the digest, and more on the analysis *)

Module Sha256Facts.
Import Sha256.

Lemma round_length st kw : length (round st kw) = length st.
Proof.
  unfold round.
  destruct st as [|a [|b [|c [|d [|e [|f [|g [|h [|]]]]]]]]]; done.
Qed.

Lemma rounds_length l st : length (fold_left round l st) = length st.
Proof.
  revert st. induction l as [|kw l IH]; intros st; [done|].
  cbn [fold_left]. by rewrite IH, round_length.
Qed.

Lemma compress_length h block : length (compress h block) = length h.
Proof.
  unfold compress. rewrite length_map, length_combine, rounds_length. lia.
Qed.

Lemma blocks_length fuel h ws : length (blocks fuel h ws) = length h.
Proof.
  revert h ws. induction fuel as [|fuel IH]; intros h ws; [done|].
  cbn [blocks]. destruct ws; [done|]. by rewrite IH, compress_length.
Qed.

Lemma hex_of_nibbles_length l : String.length (hex_of_nibbles l) = length l.
Proof. induction l as [|x l IH]; [done|]. cbn. by rewrite IH. Qed.

Lemma nibbles_length l : length (flat_map word_nibbles l) = (8 * length l)%nat.
Proof.
  induction l as [|x l IH]; [done|]. cbn [flat_map]. rewrite length_app, IH.
  cbn [length]. unfold word_nibbles. rewrite length_map. cbn. lia.
Qed.

Lemma hexdigest_length data : String.length (hexdigest data) = 64%nat.
Proof.
  unfold hexdigest, digest. by rewrite hex_of_nibbles_length, nibbles_length, blocks_length.
Qed.

Lemma hex_digit_is_hex x : 0 <= x < 16 -> is_hex (hex_digit x) = true.
Proof.
  intros H.
  assert (x = 0 \/ x = 1 \/ x = 2 \/ x = 3 \/ x = 4 \/ x = 5 \/ x = 6 \/ x = 7
          \/ x = 8 \/ x = 9 \/ x = 10 \/ x = 11 \/ x = 12 \/ x = 13 \/ x = 14
          \/ x = 15) as Hx by lia.
  repeat (destruct Hx as [-> | Hx]; [reflexivity|]). by subst.
Qed.

Lemma word_nibbles_range x : Forall (fun n => 0 <= n < 16) (word_nibbles x).
Proof.
  unfold word_nibbles. apply Forall_forall. intros n Hn.
  apply list_elem_of_In, in_map_iff in Hn as [i [<- _]].
  change 15 with (Z.ones 4). rewrite Z.land_ones by lia.
  apply Z.mod_pos_bound. lia.
Qed.

Lemma hex_of_nibbles_hex l :
  Forall (fun n => 0 <= n < 16) l -> all_chars is_hex (hex_of_nibbles l) = true.
Proof.
  induction 1 as [|x l Hx _ IH]; [done|]. cbn [hex_of_nibbles all_chars].
  by rewrite hex_digit_is_hex, IH.
Qed.

Lemma hexdigest_hex data : all_chars is_hex (hexdigest data) = true.
Proof.
  unfold hexdigest. apply hex_of_nibbles_hex.
  induction (digest (bytes_of_string data)) as [|x l IH]; [done|].
  cbn [flat_map]. apply Forall_app. split; [apply word_nibbles_range | done].
Qed.

End Sha256Facts.

Section MoreAnalyzer.
Context `{L : PyLib}.
Import Ast.

(** X15. The cache key is made of 64 lower-case hexadecimal characters,
    whatever the tree and the patterns: it is never empty, so the test
    [if cache_key] of main holds whenever the key was computed, and it is a
    plain file name under CACHE_DIR. *)
Theorem cache_key_shape t pats :
  String.length (calculate_project_hash t pats) = 64%nat
  /\ all_chars is_hex (calculate_project_hash t pats) = true
  /\ calculate_project_hash t pats <> EmptyString.
Proof.
  unfold calculate_project_hash. split_and!.
  - apply Sha256Facts.hexdigest_length.
  - apply Sha256Facts.hexdigest_hex.
  - intros H. pose proof (Sha256Facts.hexdigest_length (hash_updates t pats)) as Hl.
    by rewrite H in Hl.
Qed.

Lemma node_issues_length n : (length (node_issues n) <= if is_FunctionDef n then 2 else 0)%nat.
Proof.
  destruct n as [| name a body | | | | |]; cbn [node_issues is_FunctionDef length]; try lia.
  rewrite length_app. destruct (_ <? _)%nat, (lacks_docstring body); cbn; lia.
Qed.

Lemma flat_map_issues_length l :
  (length (flat_map node_issues l) <= 2 * length (List.filter is_FunctionDef l))%nat.
Proof.
  induction l as [|n l IH]; [done|]. cbn [flat_map List.filter].
  rewrite length_app. pose proof (node_issues_length n).
  destruct (is_FunctionDef n); cbn [length]; lia.
Qed.

Lemma flat_map_perm {A B} (f : A -> list B) l1 l2 :
  Permutation l1 l2 -> Permutation (flat_map f l1) (flat_map f l2).
Proof.
  induction 1; cbn [flat_map]; try done.
  - by apply Permutation_app_head.
  - rewrite !app_assoc. apply Permutation_app_tail, Permutation_app_comm.
  - by etrans.
Qed.

Lemma node_issues_clean n : node_issues n = [] <-> is_clean n = true.
Proof.
  destruct n as [| name a body | | | | |]; cbn [node_issues is_clean]; try done.
  destruct (Nat.ltb_spec 5 (length (args a))), (Nat.leb_spec (length (args a)) 5);
    try lia; destruct (lacks_docstring body); cbn; split; done.
Qed.

Lemma flat_map_nil {A B} (f : A -> list B) l :
  flat_map f l = [] <-> forall x, In x l -> f x = [].
Proof.
  induction l as [|y l IH]; cbn [flat_map In]; [done|]. split.
  - intros H. apply app_eq_nil in H as [H1 H2]. intros x [<-|Hx]; [done|].
    by apply IH.
  - intros H. rewrite (H y) by auto. cbn. apply IH. auto.
Qed.

(** X16. For a Python file that parses, the issues are those of the def
    statements of the tree, nested ones included, and nothing else, up to
    the order in which ast.walk yields them: at most two for each def
    statement, and none exactly when every def statement has at most five
    parameters and a non-empty docstring. *)
Theorem python_issues_from_defs path content tree :
  Py.endswith path ".py" = true ->
  ast_parse content = Returned tree ->
  exists a,
    perform_static_analysis path content = Returned a
    /\ Permutation (issues a) (flat_map node_issues (nodes tree))
    /\ (length (issues a) <= 2 * count_defs tree)%nat
    /\ (issues a = [] <-> forall n, In n (nodes tree) -> is_clean n = true).
Proof.
  intros Hpy Hparse. eexists. split; [by apply perform_static_analysis_parsed|].
  cbn [issues]. split_and!.
  - apply flat_map_perm, AstFacts.walk_perm.
  - unfold count_defs. rewrite <- AstFacts.walk_count. apply flat_map_issues_length.
  - rewrite flat_map_nil. split.
    + intros H n Hn. apply node_issues_clean, H.
      eapply Permutation_in; [symmetry; apply AstFacts.walk_perm | done].
    + intros H n Hn. apply node_issues_clean, H.
      eapply Permutation_in; [apply AstFacts.walk_perm | done].
Qed.

(** X17. Every branch of perform_static_analysis returns the path it
    was given, the number of lines and the size of the content.  The
    structure metrics are present exactly for a path that ends in ".py"
    whose content parses; a file that is not Python gets at most three
    issues; a Python file that does not parse gets one issue, which carries
    the message of the parser. *)
Theorem analysis_keeps_file_facts path content :
  exists a,
    perform_static_analysis path content = Returned a
    /\ file_path a = path
    /\ lines_of_code a = length (Py.splitlines content)
    /\ size_bytes a = String.length content
    /\ (structure a <> None <->
          Py.endswith path ".py" = true /\ exists tree, ast_parse content = Returned tree)
    /\ (Py.endswith path ".py" = false -> (length (issues a) <= 3)%nat)
    /\ (forall e, Py.endswith path ".py" = true -> ast_parse content = Raised e ->
          issues a = [match e with
                      | SyntaxError msg => "Syntax error: " +:+ msg
                      | OtherException msg => "Analysis error: " +:+ msg
                      end]).
Proof.
  unfold perform_static_analysis. destruct (Py.endswith path ".py").
  - unfold analyze_python. destruct (ast_parse content) as [tree|e]; cbn [bind].
    + cbn. eexists. split_and!; try done. cbn. split; [|done].
      intros _. split; [done | by exists tree].
    + destruct e; cbn; eexists; split_and!; try done; cbn.
      * split; [done | by intros [_ [? ?]]].
      * by intros ? _ [= <-].
      * split; [done | by intros [_ [? ?]]].
      * by intros ? _ [= <-].
  - destruct (existsb _ _).
    + eexists. split; [done|]. unfold analyze_script, add_issues.
      destruct (Py.contains "console.log(" content), (Py.contains "var " content),
        (_ <? _)%nat; cbn; split_and!; try done; try (intros _; cbn; lia);
        (split; [done | by intros [? _]]).
    + eexists. cbn. split_and!; try done; cbn.
      * split; [done | by intros [? _]].
      * intros _. lia.
Qed.

End MoreAnalyzer.

(** ** The further properties on concrete inputs *)

Section MoreExamples.
Import Demo.
#[local] Existing Instance lib.

(** X5, at a file at the top and a file in a sub-directory, with limits
    of 100 bytes. *)
Lemma passes_agree_witness :
  NoDup (map fst (scanned nested []))
  /\ (processed_files (read_pass nested [] 100 true
                         (skipped_files (budget_pass nested [] 100 100)))
      <= file_count (budget_pass nested [] 100 100))%nat.
Proof.
  assert (NoDup (map fst (scanned nested []))) as Hnd.
  { apply (bool_decide_unpack _). vm_compute. exact I. }
  split; [exact Hnd|].
  apply (passes_agree nested [] 100 100 true Hnd).
  apply (bool_decide_unpack _). vm_compute. exact I.
Defined.

(** X6, at a source file and its byte code, the byte code written
    again. *)
Lemma run_untouched_by_ignored_files_witness :
  main (with_path (with_path (run_args 100) with_bytecode)
                  (map_files (touch "main.pyc" 1700000060) EmptyString with_bytecode))
       cfg env0 None
  = main (with_path (run_args 100) with_bytecode) cfg env0 None.
Proof.
  apply (run_untouched_by_ignored_files (touch (L := lib) "main.pyc" 1700000060)
           (with_path (run_args 100) with_bytecode) cfg env0 None).
  - apply touch_keeps_names.
  - intros rel f Hin. vm_compute in Hin. destruct Hin as [[= <- <-]|[]]. reflexivity.
Defined.

(** X7, at two files of 2 bytes and limits of 100 bytes. *)
Lemma nothing_skipped_when_it_fits_witness :
  skipped_files (budget_pass nested [] 100 100) = []
  /\ total_size (budget_pass nested [] 100 100) = total_bytes_of (scanned nested []).
Proof.
  destruct (nothing_skipped_when_it_fits nested [] 100 100 true) as (H1 & _ & H3 & _).
  - apply (bool_decide_unpack _). vm_compute. exact I.
  - vm_compute. discriminate.
  - by split.
Defined.

(** X9, at a directory of two files listed in reverse. *)
Lemma fingerprint_ignores_file_order_witness :
  calculate_project_hash (reorder_files (@rev _) with_bytecode) []
  = calculate_project_hash with_bytecode [].
Proof.
  apply (fingerprint_ignores_file_order (@rev _) with_bytecode []).
  - intros l. symmetry. apply Permutation_rev.
  - constructor; [|constructor].
    apply (bool_decide_unpack _). vm_compute. exact I.
Defined.


(** X16, at a class with a method that holds a function, and a function
    beside it. *)
Lemma python_issues_from_defs_witness :
  exists a,
    perform_static_analysis "box.py" source_nested = Returned a
    /\ Permutation (issues a) (flat_map node_issues (Ast.nodes tree_nested))
    /\ (length (issues a) <= 2 * Ast.count_defs tree_nested)%nat
    /\ (issues a = [] <-> forall n, In n (Ast.nodes tree_nested) -> is_clean n = true).
Proof.
  apply (python_issues_from_defs "box.py" source_nested tree_nested); reflexivity.
Defined.

End MoreExamples.
